(** * persian-date-utils: the calendar functions of [src/index.ts]

    A shallow embedding of the calendar functions of the library (leap-year
    predicate, month lengths, Persian/Gregorian conversion, day arithmetic,
    week numbers, weekday names, pattern formatting, digit transliteration)
    together with the fragment of the ECMAScript runtime those functions call
    ([Date], [%], [Math.floor], [Math.ceil], string building).

    Conventions of the embedding.
    - A JavaScript [number] holding an integer is a [Z]; a number that may be
      [NaN] is a [num] = [option Z] with [None] for [NaN].  Sums and products
      of the source are exact on doubles while they stay below 2^53; a time
      value beyond 8.64e15 is clipped to [NaN] before it is read, so for
      arguments of ordinary size (below 2^40, say) the integer model and the
      double arithmetic agree.  The two divisions followed by [Math.floor]
      carry their own remark.
    - A JavaScript string is the list of its UTF-16 code units.
    - A [Date] object is its time value in milliseconds since 1970-01-01
      (a [num]: an invalid date holds [NaN]).  Local time is taken to be UTC,
      so the local-time accessors of the source read the time value directly. *)

From Stdlib Require Import ZArith List Bool Lia String Ascii DecimalString.
Import ListNotations.
Open Scope Z_scope.

(** ** The ECMAScript fragment used by the source *)

Module JS.

(** Strings: sequences of UTF-16 code units. *)
Definition jsstring := list Z.

Definition str (s : string) : jsstring :=
  map (fun a => Z.of_N (N_of_ascii a)) (list_ascii_of_string s).

(** A number that may be [NaN]. *)
Definition num := option Z.

(** [a % b] on integers: the remainder has the sign of the dividend. *)
Definition rem (a b : Z) : Z := Z.rem a b.

(** [Math.floor(a / b)] and [Math.ceil(a / b)] for integers [a] and a
    positive integer [b].  The double quotient is correctly rounded: its
    floor (ceiling) is the integer one as long as [a] itself is exact
    (below 2^53 in magnitude) and half an ulp of the quotient is below
    [1 / b]; for [b = 86400000] both hold when the two time values are at
    most 2^53 ms (about 285000 years) apart, and for [b = 7] or [b = 33]
    on every day or year count below 2^40. *)
Definition floor_div (a b : Z) : Z := a / b.
Definition ceil_div (a b : Z) : Z := - ((- a) / b).

(** [Array.prototype.includes] on an array of integers. *)
Fixpoint includes (a : list Z) (x : Z) : bool :=
  match a with
  | [] => false
  | y :: rest => (y =? x) || includes rest x
  end.

(** The values a function typed [number | null] can produce, and array
    indexing, which yields [undefined] outside the array. *)
Inductive value : Type :=
| Null : value
| Undefined : value
| Num : Z -> value.

Definition index (a : list Z) (i : Z) : value :=
  if i <? 0 then Undefined
  else match nth_error a (Z.to_nat i) with
       | Some v => Num v
       | None => Undefined
       end.

(** [Number.prototype.toString] on an integer (decimal, with a leading
    minus sign for negative values) and on a possibly-[NaN] number. *)
Definition toString (n : Z) : jsstring :=
  str (NilZero.string_of_int (Z.to_int n)).

Definition num_toString (n : num) : jsstring :=
  match n with
  | Some z => toString z
  | None => str "NaN"
  end.

(** [String.fromCharCode(c)]: one code unit, taken modulo 2^16. *)
Definition fromCharCode (c : Z) : jsstring := [c mod 65536].

(** [s.replace(/[lo-hi]/g, f)]: every code unit in the class is replaced
    by the string the callback returns for it. *)
Definition replace_class (lo hi : Z) (f : Z -> jsstring) (s : jsstring)
  : jsstring :=
  flat_map (fun c => if (lo <=? c) && (c <=? hi) then f c else [c]) s.

(** *** Time values (ECMAScript, "Time Values and Time Range") *)

Definition msPerDay : Z := 86400000.

Definition Day (t : Z) : Z := t / msPerDay.
Definition TimeWithinDay (t : Z) : Z := t mod msPerDay.

Definition isLeap (y : Z) : bool :=
  ((y mod 4 =? 0) && negb (y mod 100 =? 0)) || (y mod 400 =? 0).

Definition DaysInYear (y : Z) : Z := if isLeap y then 366 else 365.

Definition DayFromYear (y : Z) : Z :=
  365 * (y - 1970) + (y - 1969) / 4 - (y - 1901) / 100 + (y - 1601) / 400.

(** The year containing day number [d]: the largest [y] with
    [DayFromYear y <= d] (lemma [YearFromDay_bounds] below), computed
    through the 400/100/4/1-year cycles counted from 0001-01-01. *)
Definition YearFromDay (d : Z) : Z :=
  let d0 := d + 719162 in
  let n400 := d0 / 146097 in
  let d1 := d0 mod 146097 in
  let n100 := Z.min 3 (d1 / 36524) in
  let d2 := d1 - 36524 * n100 in
  let n4 := d2 / 1461 in
  let d3 := d2 mod 1461 in
  let n1 := Z.min 3 (d3 / 365) in
  400 * n400 + 100 * n100 + 4 * n4 + n1 + 1.

Definition YearFromTime (t : Z) : Z := YearFromDay (Day t).

Definition DayWithinYear (t : Z) : Z :=
  Day t - DayFromYear (YearFromTime t).

(** Days before each month (index 0..11) in a year with leap flag [l]. *)
Definition monthStart (l : bool) (m : Z) : Z :=
  let L := if l then 1 else 0 in
  match m with
  | 0 => 0 | 1 => 31 | 2 => 59 + L | 3 => 90 + L | 4 => 120 + L
  | 5 => 151 + L | 6 => 181 + L | 7 => 212 + L | 8 => 243 + L
  | 9 => 273 + L | 10 => 304 + L | 11 => 334 + L | _ => 365 + L
  end.

Definition MonthFromTime (t : Z) : Z :=
  let l := isLeap (YearFromTime t) in
  let d := DayWithinYear t in
  if d <? monthStart l 1 then 0
  else if d <? monthStart l 2 then 1
  else if d <? monthStart l 3 then 2
  else if d <? monthStart l 4 then 3
  else if d <? monthStart l 5 then 4
  else if d <? monthStart l 6 then 5
  else if d <? monthStart l 7 then 6
  else if d <? monthStart l 8 then 7
  else if d <? monthStart l 9 then 8
  else if d <? monthStart l 10 then 9
  else if d <? monthStart l 11 then 10
  else 11.

Definition DateFromTime (t : Z) : Z :=
  DayWithinYear t
  - monthStart (isLeap (YearFromTime t)) (MonthFromTime t) + 1.

(** [MakeDay(year, month, date)]: months and dates outside their usual
    range carry over. *)
Definition MakeDay (year month date : Z) : Z :=
  let ym := year + month / 12 in
  let mn := month mod 12 in
  DayFromYear ym + monthStart (isLeap ym) mn + date - 1.

Definition MakeDate (day time : Z) : Z := day * msPerDay + time.

(** [TimeClip]: a time value beyond +-8.64e15 ms is [NaN]. *)
Definition TimeClip (t : Z) : num :=
  if Z.abs t <=? 8640000000000000 then Some t else None.

(** *** Date objects, local time = UTC *)

Definition Date := num.

(** [new Date(year, monthIndex, day)]; years 0..99 mean 1900..1999. *)
Definition Date_ymd (year monthIndex day : Z) : Date :=
  let yr := if (0 <=? year) && (year <=? 99) then 1900 + year else year in
  TimeClip (MakeDate (MakeDay yr monthIndex day) 0).

(** [new Date(ms)] for a numeric time value. *)
Definition Date_ms (t : num) : Date :=
  match t with
  | Some z => TimeClip z
  | None => None
  end.

Definition getTime (d : Date) : num := d.
Definition getFullYear (d : Date) : num := option_map YearFromTime d.
Definition getMonth (d : Date) : num := option_map MonthFromTime d.
Definition getDate (d : Date) : num := option_map DateFromTime d.

(** [d.setDate(n)]: the date object after the call. *)
Definition setDate (d : Date) (n : num) : Date :=
  match d, n with
  | Some t, Some dt =>
      TimeClip (MakeDate (MakeDay (YearFromTime t) (MonthFromTime t) dt)
                         (TimeWithinDay t))
  | _, _ => None
  end.

(** Arithmetic on possibly-[NaN] numbers. *)
Definition lift2 (f : Z -> Z -> Z) (a b : num) : num :=
  match a, b with
  | Some x, Some y => Some (f x y)
  | _, _ => None
  end.

Definition add : num -> num -> num := lift2 Z.add.
Definition sub : num -> num -> num := lift2 Z.sub.
Definition mul : num -> num -> num := lift2 Z.mul.

(** [a < b]: false as soon as one side is [NaN]. *)
Definition lt (a b : num) : bool :=
  match a, b with
  | Some x, Some y => x <? y
  | _, _ => false
  end.

(** [new Date(s)] on a date-only ISO string [YYYY-MM-DD] (four-digit year,
    a month in 01..12, a day that exists in that month): midnight UTC of
    that day.  Other strings are parsed in implementation-defined ways and
    are outside the model: [None] here means "not modelled". *)
Definition digit (c : Z) : option Z :=
  if (48 <=? c) && (c <=? 57) then Some (c - 48) else None.

Definition DaysInMonth (y m : Z) : Z :=
  monthStart (isLeap y) m - monthStart (isLeap y) (m - 1).

Definition Date_parse (s : jsstring) : option Z :=
  match s with
  | [y1; y2; y3; y4; 45; m1; m2; 45; d1; d2] =>
      match digit y1, digit y2, digit y3, digit y4,
            digit m1, digit m2, digit d1, digit d2 with
      | Some a, Some b, Some c, Some d, Some e, Some f, Some g, Some h =>
          let y := 1000 * a + 100 * b + 10 * c + d in
          let m := 10 * e + f in
          let dd := 10 * g + h in
          if (1 <=? m) && (m <=? 12) && (1 <=? dd) && (dd <=? DaysInMonth y m)
          then Some (MakeDate (MakeDay y (m - 1) dd) 0)
          else None
      | _, _, _, _, _, _, _, _ => None
      end
  | _ => None
  end.

End JS.

Import JS.

(** ** The library *)

(** The character class of the regular expression: the Persian digits,
    code units U+06F0..U+06F9. *)
Definition isPersianDigit (c : Z) : bool := (1776 <=? c) && (c <=? 1785).

(** [convertToLatinDigits]: Persian digits U+06F0..U+06F9 (code units
    1776..1785) become the ASCII digits. *)
Definition convertToLatinDigits (s : jsstring) : jsstring :=
  replace_class 1776 1785 (fun c => fromCharCode (c - 1728)) s.

(** [isShamsiLeapYear] *)
Definition isShamsiLeapYear (year : Z) : bool :=
  (rem year 33 =? 0) || includes [4; 8; 12; 16; 20; 24; 28] (rem year 33).

Definition regularYearDaysInMonths : list Z :=
  [31; 31; 31; 30; 31; 30; 31; 31; 30; 31; 30; 30].
Definition leapYearDaysInMonths : list Z :=
  [31; 31; 31; 30; 31; 30; 31; 31; 30; 31; 30; 29].

(** [getShamsiMonthDays] *)
Definition getShamsiMonthDays (month year : Z) : value :=
  if (month <? 1) || (month >? 12) then Null
  else
    let isLeapYear := isShamsiLeapYear year in
    if isLeapYear then index leapYearDaysInMonths (month - 1)
    else index regularYearDaysInMonths (month - 1).

(** [getShamsiYearDays] *)
Definition getShamsiYearDays (year : Z) : Z :=
  if isShamsiLeapYear year then 366 else 365.

(** The accumulation loop shared by both Persian-to-Gregorian converters:
    [for (let i = 0; i < month - 1; i++) acc += table[i]], started at index
    [i] with [n] iterations left.  Indexing past the table reads [undefined]
    and turns the sum into [NaN]. *)
Definition value_to_num (v : value) : num :=
  match v with
  | Num z => Some z
  | Null => Some 0
  | Undefined => None
  end.

Fixpoint sumLoop (table : list Z) (n : nat) (i : Z) (acc : num) : num :=
  match n with
  | O => acc
  | S n' => sumLoop table n' (i + 1) (add acc (value_to_num (index table i)))
  end.

Definition daysBeforeMonth (table : list Z) (month : Z) : num :=
  sumLoop table (Z.to_nat (month - 1)) 0 (Some 0).

(** [String(x).padStart(2, '0')] *)
Definition padStart2 (s : jsstring) : jsstring :=
  repeat 48 (2 - List.length s)%nat ++ s.

(** [persianDate.split('/')] *)
Fixpoint split_slash (s : jsstring) (cur : jsstring) : list jsstring :=
  match s with
  | [] => [rev cur]
  | c :: rest =>
      if c =? 47 then rev cur :: split_slash rest []
      else split_slash rest (c :: cur)
  end.

(** [Number(s)] on a non-empty string of decimal digits.  Other strings
    (signs, blanks, exponents, the empty string) are outside the model. *)
Fixpoint digits_value (s : jsstring) (acc : Z) : option Z :=
  match s with
  | [] => Some acc
  | c :: rest =>
      match digit c with
      | Some d => digits_value rest (10 * acc + d)
      | None => None
      end
  end.

Definition Number_dec (s : jsstring) : option Z :=
  match s with
  | [] => None
  | _ => digits_value s 0
  end.

(** [convertToGregorianDate] after [const [year, month, day] = ...]: the
    legacy converter on the three parsed numbers.  It returns the calendar
    date it found (year, month 1..12, day) next to the string it formats. *)
Definition legacyGregorianDate (year month day : Z) : Date :=
  let persianNewYear := Date_ymd year 2 21 in
  let isLeapYear := rem year 4 =? 3 in
  let daysInPersianMonth :=
    if isLeapYear then leapYearDaysInMonths else regularYearDaysInMonths in
  let totalDays := daysBeforeMonth daysInPersianMonth month in
  let totalDays := add totalDays (Some day) in
  let gregorianStart :=
    match getFullYear persianNewYear with
    | Some y => Date_ymd y 2 21
    | None => None
    end in
  Date_ms (add (getTime gregorianStart)
               (mul totalDays (Some (24 * 60 * 60 * 1000)))).

Definition convertToGregorianDate_numbers (year month day : Z) : jsstring :=
  let gregorianDate := legacyGregorianDate year month day in
  let gYear := getFullYear gregorianDate in
  let gMonth := padStart2 (num_toString (add (getMonth gregorianDate) (Some 1))) in
  let gDay := padStart2 (num_toString (getDate gregorianDate)) in
  gMonth ++ str "/" ++ gDay ++ str "/" ++ num_toString gYear.

(** [convertToGregorianDate] on a string whose first three slash-separated
    fields are decimal numerals; [None]: the input is outside the model. *)
Definition convertToGregorianDate (persianDate : jsstring) : option jsstring :=
  match map Number_dec (split_slash persianDate []) with
  | Some year :: Some month :: Some day :: _ =>
      Some (convertToGregorianDate_numbers year month day)
  | _ => None
  end.

(** [getShamsiWeekNumber(date, startDate)] with both arguments given.  The
    subtraction and the divisions are modelled exactly; the doubles of the
    source agree with them while the two time values are at most 2^53 ms
    apart. *)
Definition weekNumberOf (date startDate : Date) : num :=
  let daysSinceStartOfYear :=
    option_map (fun ms => floor_div ms (1000 * 60 * 60 * 24))
               (sub (getTime date) (getTime startDate)) in
  option_map (fun d => ceil_div d 7) daysSinceStartOfYear.

Definition getShamsiWeekNumber (date startDate : Date) : jsstring :=
  convertToLatinDigits (num_toString (weekNumberOf date startDate)).

(** The default of the second parameter: [new Date(date.getFullYear(), 2, 21)]. *)
Definition defaultStartDate (date : Date) : Date :=
  match getFullYear date with
  | Some y => Date_ymd y 2 21
  | None => None
  end.

(** [padZero] *)
Definition padZero (n : num) : jsstring :=
  if lt n (Some 10) then str "0" ++ num_toString n else num_toString n.

(** [Math.floor(d / 365.2422)] as the exact quotient [floor(10000 d / 3652422)].
    The exact quotient is an integer only when 1826211 divides [d]; elsewhere
    it lies at least 1/3652422 away from every integer, far more than the
    rounding of the double division, so both floors agree for
    0 <= |d| < 1826211 days (about 5000 years around the anchor). *)
Definition floor_div_365_2422 (d : Z) : Z := (d * 10000) / 3652422.

(** The month walk of [convertGregorianToShamsi]: the loop over the twelve
    table entries with its [break]; [(1, 0)] are the initial values of
    [persianMonth] and [persianDay], kept when no entry matches. *)
Fixpoint monthWalk (table : list Z) (i : Z) (days : num) : Z * num :=
  match table with
  | [] => (1, Some 0)
  | len :: rest =>
      if lt days (Some len) then (i + 1, add days (Some 1))
      else monthWalk rest (i + 1) (sub days (Some len))
  end.

(** [convertGregorianToShamsi]: the Persian date found, then the string. *)
Definition gregorianToShamsiDate (year month day : Z) : num * Z * num :=
  let gregorianDate := Date_ymd year (month - 1) day in
  let startDate := Date_ymd 621 2 21 in
  let daysDifference :=
    option_map (fun ms => floor_div ms (1000 * 60 * 60 * 24))
               (sub (getTime gregorianDate) (getTime startDate)) in
  let persianYear :=
    add (Some 621) (option_map floor_div_365_2422 daysDifference) in
  let daysInPersianYear := option_map (fun d => rem d 365) daysDifference in
  let isLeapYear :=
    match persianYear with
    | Some y => isShamsiLeapYear y
    | None => false
    end in
  let monthsInYear :=
    if isLeapYear then leapYearDaysInMonths else regularYearDaysInMonths in
  let '(persianMonth, persianDay) := monthWalk monthsInYear 0 daysInPersianYear in
  (persianYear, persianMonth, persianDay).

Definition convertGregorianToShamsi (year month day : Z) : jsstring :=
  let '(persianYear, persianMonth, persianDay) :=
    gregorianToShamsiDate year month day in
  num_toString persianYear ++ str "/" ++ padZero (Some persianMonth)
    ++ str "/" ++ padZero persianDay.

(** [convertShamsiToGregorian]: the [Date] it builds, then the string.  The
    sums and products are modelled exactly; the doubles of the source agree
    with them for a year and a day below 2^40 in magnitude. *)
Definition shamsiToGregorianDate (year month day : Z) : Date :=
  let startDate := Date_ymd 621 2 21 in
  let isLeapYear := isShamsiLeapYear year in
  let monthsInYear :=
    if isLeapYear then leapYearDaysInMonths else regularYearDaysInMonths in
  let daysInPersianYear := daysBeforeMonth monthsInYear month in
  let daysInPersianYear := add daysInPersianYear (Some (day - 1)) in
  let totalDays :=
    add (Some ((year - 1) * 365 + floor_div (year - 1) 33)) daysInPersianYear in
  Date_ms (add (getTime startDate)
               (mul totalDays (Some (24 * 60 * 60 * 1000)))).

Definition formatGregorian (gregorianDate : Date) : jsstring :=
  let gregorianYear := getFullYear gregorianDate in
  let gregorianMonth := add (getMonth gregorianDate) (Some 1) in
  let gregorianDay := getDate gregorianDate in
  num_toString gregorianYear ++ str "-" ++ padZero gregorianMonth
    ++ str "-" ++ padZero gregorianDay.

Definition convertShamsiToGregorian (year month day : Z) : jsstring :=
  formatGregorian (shamsiToGregorianDate year month day).

(** [addShamsiDays] and [subtractShamsiDays]; [None]: the intermediate
    Gregorian string is outside the modelled fragment of [new Date(string)].
    When [setDate] leaves an invalid date its accessors all read [NaN], on
    which [convertGregorianToShamsi] keeps its initial month 1 and day 0. *)
Definition addShamsiDays (year month day daysToAdd : Z) : option jsstring :=
  let gregorianDate := convertShamsiToGregorian year month day in
  match Date_parse gregorianDate with
  | None => None
  | Some t =>
      let date := Some t in
      let date := setDate date (add (getDate date) (Some daysToAdd)) in
      match getFullYear date, getMonth date, getDate date with
      | Some y, Some m, Some d => Some (convertGregorianToShamsi y (m + 1) d)
      | _, _, _ => Some (str "NaN/01/00")
      end
  end.

Definition subtractShamsiDays (year month day daysToSubtract : Z)
  : option jsstring :=
  addShamsiDays year month day (- daysToSubtract).

(** ** Derived notions used by the statements *)

(** The twelve month lengths [getShamsiMonthDays] reports for a year, and
    their sum when all twelve are numbers. *)
Definition monthNumbers : list Z := [1; 2; 3; 4; 5; 6; 7; 8; 9; 10; 11; 12].

Definition yearMonthDays (year : Z) : list value :=
  map (fun m => getShamsiMonthDays m year) monthNumbers.

Fixpoint sumValues (vs : list value) : num :=
  match vs with
  | [] => Some 0
  | v :: rest => add (value_to_num v) (sumValues rest)
  end.

Definition sumMonthDays (year : Z) : num := sumValues (yearMonthDays year).

(** A valid Persian date: month in 1..12 and day within the length
    [getShamsiMonthDays] gives that month. *)
Definition validShamsiDate (year month day : Z) : bool :=
  match getShamsiMonthDays month year with
  | Num len => (1 <=? day) && (day <=? len)
  | _ => false
  end.

(** The Persian-to-Gregorian algorithm as the specification words it:
    month lengths strictly before [month] plus [day - 1], the elapsed day
    count from the anchor, and the anchor advanced by that many days. *)
Definition sumZ (l : list Z) : Z := fold_right Z.add 0 l.

Definition spec_monthTable (year : Z) : list Z :=
  if isShamsiLeapYear year then leapYearDaysInMonths
  else regularYearDaysInMonths.

Definition spec_dayOfYear (year month day : Z) : Z :=
  sumZ (firstn (Z.to_nat (month - 1)) (spec_monthTable year)) + (day - 1).

Definition spec_totalDays (year month day : Z) : Z :=
  (year - 1) * 365 + (year - 1) / 33 + spec_dayOfYear year month day.

Definition epochAnchor : Date := Date_ymd 621 2 21.

Definition Date_addDays (d : Date) (n : Z) : Date :=
  Date_ms (add (getTime d) (Some (n * msPerDay))).

Definition spec_persianToGregorian (year month day : Z) : Date :=
  Date_addDays epochAnchor (spec_totalDays year month day).

(** ** More of the library *)

(** Two more methods of [Date]: [d.setFullYear(y)] (the date object after
    the call; an invalid date is first reset to time 0) and [d.getDay()],
    0 for Sunday up to 6 for Saturday. *)
Definition setFullYear (d : Date) (y : num) : Date :=
  match y with
  | Some yr =>
      let t := match d with Some t => t | None => 0 end in
      TimeClip (MakeDate (MakeDay yr (MonthFromTime t) (DateFromTime t))
                         (TimeWithinDay t))
  | None => None
  end.

Definition WeekDay (t : Z) : Z := (Day t + 4) mod 7.

Definition getDay (d : Date) : num := option_map WeekDay d.

(** [new Date(year, 2, 21)] when the year may be [NaN]. *)
Definition Date_y_2_21 (year : num) : Date :=
  match year with
  | Some y => Date_ymd y 2 21
  | None => None
  end.

(** [getPersianNewYearDate] *)
Definition getPersianNewYearDate (year : num) : Date := Date_y_2_21 year.

(** [getShamsiWeek], with the clock reading [now = new Date()] as a
    parameter.  The week number before it is printed, then the string. *)
Definition shamsiWeekOf (now : Date) : num :=
  let persianNewYear := getPersianNewYearDate (getFullYear now) in
  let persianNewYear :=
    if lt now persianNewYear
    then setFullYear persianNewYear (sub (getFullYear now) (Some 1))
    else persianNewYear in
  let daysSinceStartOfYear :=
    option_map (fun ms => floor_div ms (1000 * 60 * 60 * 24))
               (sub (getTime now) (getTime persianNewYear)) in
  option_map (fun d => ceil_div d 7) daysSinceStartOfYear.

Definition getShamsiWeek (now : Date) : jsstring :=
  convertToLatinDigits (num_toString (shamsiWeekOf now)).

(** [getShamsiWeekNumber(date)] with the second argument left out. *)
Definition getShamsiWeekNumber_default (date : Date) : jsstring :=
  getShamsiWeekNumber date (defaultStartDate date).

(** [getShamsiDaysInMonth]: the table lookup without the month check. *)
Definition getShamsiDaysInMonth (month year : Z) : value :=
  let leapYearMonths := [31; 31; 31; 30; 31; 30; 31; 31; 30; 31; 30; 29] in
  let regularYearMonths := [31; 31; 31; 30; 31; 30; 31; 31; 30; 31; 30; 30] in
  let months :=
    if isShamsiLeapYear year then leapYearMonths else regularYearMonths in
  index months (month - 1).

(** [getCurrentShamsiDate], with the clock reading as a parameter. *)
Definition getCurrentShamsiDate (now : Z) : jsstring :=
  convertGregorianToShamsi (YearFromTime now) (MonthFromTime now + 1)
                           (DateFromTime now).

(** Leap years among the [n] years from [year] on, as [isShamsiLeapYear]
    counts them. *)
Fixpoint leapYearsFrom (year : Z) (n : nat) : Z :=
  match n with
  | O => 0
  | S n' => (if isShamsiLeapYear year then 1 else 0)
            + leapYearsFrom (year + 1) n'
  end.

(** [getShamsiWeekdayName]: the table starts with the name of Saturday and
    is indexed by [getDay()].  Outer [None]: the Gregorian string is outside
    the modelled fragment of [new Date(string)]; inner [None]: [undefined]. *)
Definition weekdays : list jsstring :=
  [ [1588; 1606; 1576; 1607];
    [1740; 1705; 1588; 1606; 1576; 1607];
    [1583; 1608; 1588; 1606; 1576; 1607];
    [1587; 1607; 8204; 1588; 1606; 1576; 1607];
    [1670; 1607; 1575; 1585; 1588; 1606; 1576; 1607];
    [1662; 1606; 1580; 1588; 1606; 1576; 1607];
    [1580; 1605; 1593; 1607] ].

Definition index_string (a : list jsstring) (i : Z) : option jsstring :=
  if i <? 0 then None else nth_error a (Z.to_nat i).

Definition getShamsiWeekdayName (year month day : Z)
  : option (option jsstring) :=
  let gregorianDate := convertShamsiToGregorian year month day in
  match Date_parse gregorianDate with
  | None => None
  | Some t => Some (index_string weekdays (WeekDay t))
  end.

(** [s.replace(token, value)] with a string token: the first occurrence
    only.  None of the values the source passes contains a dollar sign, so
    the value is inserted as it is. *)
Fixpoint startsWith (tok s : jsstring) : bool :=
  match tok, s with
  | [], _ => true
  | _ :: _, [] => false
  | a :: tok', b :: s' => (a =? b) && startsWith tok' s'
  end.

Fixpoint replace_first (tok rep s : jsstring) : jsstring :=
  if startsWith tok s then rep ++ skipn (List.length tok) s
  else match s with
       | [] => []
       | c :: rest => c :: replace_first tok rep rest
       end.

Fixpoint occurs (tok s : jsstring) : bool :=
  startsWith tok s
  || match s with
     | [] => false
     | _ :: rest => occurs tok rest
     end.

(** A replacement whose value may be [undefined] (printed "undefined") or
    outside the model ([None]); the latter only matters when the token
    occurs. *)
Definition replace_value (tok : jsstring) (rep : option (option jsstring))
  (s : jsstring) : option jsstring :=
  if occurs tok s then
    match rep with
    | Some (Some r) => Some (replace_first tok r s)
    | Some None => Some (replace_first tok (str "undefined") s)
    | None => None
    end
  else Some s.

Definition monthNames : list jsstring :=
  [ [1601; 1585; 1608; 1585; 1583; 1740; 1606];
    [1575; 1585; 1583; 1740; 1576; 1607; 1588; 1578];
    [1582; 1585; 1583; 1575; 1583];
    [1578; 1740; 1585];
    [1605; 1585; 1583; 1575; 1583];
    [1588; 1607; 1585; 1740; 1608; 1585];
    [1605; 1607; 1585];
    [1570; 1576; 1575; 1606];
    [1570; 1584; 1585];
    [1583; 1740];
    [1576; 1607; 1605; 1606];
    [1575; 1587; 1601; 1606; 1583] ].

(** [formatShamsiDate]; [None]: the pattern asks for the weekday and the
    weekday is outside the model. *)
Definition formatShamsiDate (pattern : jsstring)
  (year month day hour minute second : Z) : option jsstring :=
  let pad := fun value : Z => padZero (Some value) in
  let persianYear := toString year in
  let persianMonth := pad month in
  let persianDay := pad day in
  let persianMonthName := index_string monthNames (month - 1) in
  let persianWeekday := getShamsiWeekdayName year month day in
  let persianHour := pad hour in
  let persianMinute := pad minute in
  let persianSecond := pad second in
  let s := replace_first (str "YYYY") persianYear pattern in
  let s := replace_first (str "MM") persianMonth s in
  let s := replace_first (str "DD") persianDay s in
  match replace_value (str "Month") (Some persianMonthName) s with
  | None => None
  | Some s =>
      match replace_value (str "Weekday") persianWeekday s with
      | None => None
      | Some s =>
          let s := replace_first (str "HH") persianHour s in
          let s := replace_first (str "mm") persianMinute s in
          let s := replace_first (str "ss") persianSecond s in
          Some (convertToLatinDigits s)
      end
  end.

(** [getShamsiFormattedDate(pattern, date)] for a valid date object; the
    time of day is read with [getHours], [getMinutes], [getSeconds]. *)
Definition HourFromTime (t : Z) : Z := (t / 3600000) mod 24.
Definition MinFromTime (t : Z) : Z := (t / 60000) mod 60.
Definition SecFromTime (t : Z) : Z := (t / 1000) mod 60.

Definition getShamsiFormattedDate (pattern : jsstring) (date : Z)
  : option jsstring :=
  let persianDate :=
    convertGregorianToShamsi (YearFromTime date) (MonthFromTime date + 1)
                             (DateFromTime date) in
  match map Number_dec (split_slash persianDate []) with
  | Some year :: Some month :: Some day :: _ =>
      let hour := HourFromTime date in
      let minute := MinFromTime date in
      let second := SecFromTime date in
      formatShamsiDate pattern year month day hour minute second
  | _ => None
  end.

(** The eight tokens [formatShamsiDate] looks for, in the order of its
    [replace] calls, and whether a pattern holds one of them. *)
Definition formatTokens : list jsstring :=
  [str "YYYY"; str "MM"; str "DD"; str "Month"; str "Weekday";
   str "HH"; str "mm"; str "ss"].

Definition hasToken (pattern : jsstring) : bool :=
  existsb (fun tok => occurs tok pattern) formatTokens.

(** Decimal numerals written out digit by digit, and equality of strings
    as a boolean. *)
Definition decimal4 (y : Z) : jsstring :=
  [48 + y / 1000; 48 + (y / 100) mod 10; 48 + (y / 10) mod 10; 48 + y mod 10].

Definition decimal2 (n : Z) : jsstring := [48 + n / 10; 48 + n mod 10].

Fixpoint jsstring_eqb (a b : jsstring) : bool :=
  match a, b with
  | [], [] => true
  | x :: a', y :: b' => (x =? y) && jsstring_eqb a' b'
  | _, _ => false
  end.

(** ** Properties of the runtime model *)

(** [YearFromDay] meets the ECMAScript definition of [YearFromTime]: the
    year found starts on or before the day and the next one starts after. *)
Lemma YearFromDay_bounds (d : Z) :
  DayFromYear (YearFromDay d) <= d < DayFromYear (YearFromDay d + 1).
Proof.
  unfold DayFromYear, YearFromDay.
  Z.to_euclidean_division_equations. lia.
Qed.

Lemma DayFromYear_mono (y y' : Z) :
  y <= y' -> DayFromYear y <= DayFromYear y'.
Proof.
  unfold DayFromYear. intros Hle.
  Z.to_euclidean_division_equations. lia.
Qed.

Lemma DayFromYear_step (y : Z) :
  DayFromYear (y + 1) = DayFromYear y + DaysInYear y.
Proof.
  unfold DayFromYear, DaysInYear, isLeap.
  destruct (Z.eqb_spec (y mod 4) 0) as [H4 | H4];
    destruct (Z.eqb_spec (y mod 100) 0) as [H100 | H100];
    destruct (Z.eqb_spec (y mod 400) 0) as [H400 | H400];
    cbn [andb orb negb];
    Z.to_euclidean_division_equations; lia.
Qed.

(** The year is determined by the two bounds. *)
Lemma YearFromDay_unique (y d : Z) :
  DayFromYear y <= d < DayFromYear (y + 1) -> YearFromDay d = y.
Proof.
  intros [Hlo Hhi].
  destruct (YearFromDay_bounds d) as [Blo Bhi].
  destruct (Z.lt_trichotomy (YearFromDay d) y) as [Hlt | [Heq | Hgt]].
  - pose proof (DayFromYear_mono (YearFromDay d + 1) y ltac:(lia)). lia.
  - exact Heq.
  - pose proof (DayFromYear_mono (y + 1) (YearFromDay d) ltac:(lia)). lia.
Qed.


Ltac split_cases H :=
  repeat match type of H with
         | _ \/ _ => destruct H as [H | H]
         end.

Ltac decide_ltb :=
  repeat match goal with
         | |- context [?a <? ?b] => destruct (Z.ltb_spec a b); try lia
         end.

(** Reading back a calendar date built by [MakeDay]: year, month index and
    day of the month are the ones given. *)
Lemma civil_roundtrip (y m dd : Z) :
  0 <= m <= 11 -> 1 <= dd <= DaysInMonth y (m + 1) ->
  let t := MakeDate (MakeDay y m dd) 0 in
  YearFromTime t = y /\ MonthFromTime t = m /\ DateFromTime t = dd.
Proof.
  intros Hm Hd t.
  assert (Hday : Day t = DayFromYear y + monthStart (isLeap y) m + dd - 1).
  { unfold t, Day, MakeDate, MakeDay, msPerDay.
    rewrite Z.add_0_r, Z.div_mul by lia.
    rewrite (Z.div_small m 12), (Z.mod_small m 12), Z.add_0_r by lia.
    reflexivity. }
  unfold DaysInMonth in Hd. replace (m + 1 - 1) with m in Hd by lia.
  assert (Hc : m = 0 \/ m = 1 \/ m = 2 \/ m = 3 \/ m = 4 \/ m = 5 \/ m = 6
               \/ m = 7 \/ m = 8 \/ m = 9 \/ m = 10 \/ m = 11) by lia.
  assert (Hy : YearFromTime t = y).
  { unfold YearFromTime. apply YearFromDay_unique. rewrite Hday.
    rewrite DayFromYear_step. unfold DaysInYear.
    destruct (isLeap y); split_cases Hc; subst m; cbn in Hd |- *; lia. }
  split; [exact Hy |].
  unfold DateFromTime, MonthFromTime, DayWithinYear.
  rewrite Hy, Hday.
  destruct (isLeap y); split_cases Hc; subst m;
    cbn [monthStart Z.add Pos.add Pos.succ] in Hd |- *; decide_ltb;
    cbn [monthStart Z.add Pos.add Pos.succ]; lia.
Qed.

(** Known points of the calendar: the origin of time values, the anchor
    621-03-21 (492633 days before it) and a leap day. *)
Example Date_ymd_origin : Date_ymd 1970 0 1 = Some 0.
Proof. reflexivity. Qed.

Example epochAnchor_day : epochAnchor = Some (-492633 * msPerDay).
Proof. reflexivity. Qed.

Example formatGregorian_leap_day :
  formatGregorian (Date_ymd 2024 1 29) = str "2024-02-29"
  /\ formatGregorian (Date_ymd 2023 1 29) = str "2023-03-01".
Proof. split; reflexivity. Qed.

(** ** Leap years and month lengths *)

(** On non-negative years the remainder [%] is the mathematical modulo. *)
Lemma rem_nonneg_mod (year : Z) : 0 <= year -> rem year 33 = year mod 33.
Proof. intros H. unfold rem. apply Z.rem_mod_nonneg; lia. Qed.

Lemma includes_In (a : list Z) (x : Z) : includes a x = true <-> In x a.
Proof.
  induction a as [| y rest IH]; simpl.
  - split; [discriminate | tauto].
  - rewrite orb_true_iff, Z.eqb_eq, IH. tauto.
Qed.

Lemma isShamsiLeapYear_true_iff (year : Z) :
  isShamsiLeapYear year = true <->
  rem year 33 = 0 \/ includes [4; 8; 12; 16; 20; 24; 28] (rem year 33) = true.
Proof.
  unfold isShamsiLeapYear. rewrite orb_true_iff, Z.eqb_eq. tauto.
Qed.

(** C1, as the claim has it, fails below 0: -29 is 4 modulo 33, so the
    claim makes -29 a leap year, yet [-29 % 33] is -29 and the function
    returns false. *)
Lemma isShamsiLeapYear_rule_fails_negative :
  ~ (isShamsiLeapYear (-29) = true <->
     (-29) mod 33 = 0 \/ In ((-29) mod 33) [4; 8; 12; 16; 20; 24; 28]).
Proof.
  intros [_ H].
  assert (Hleap : isShamsiLeapYear (-29) = true).
  { apply H. right. change ((-29) mod 33) with 4. left. reflexivity. }
  vm_compute in Hleap. discriminate Hleap.
Qed.

(** C1, amended. For every integer year, [isShamsiLeapYear year] is true
    exactly when [year mod 33 = 0], or [year >= 0] and [year mod 33] is one
    of 4, 8, 12, 16, 20, 24, 28 ([mod] being the mathematical modulo, with
    values 0..32).  A negative year is leap only when it is a multiple of
    33.  The function is total: every integer gets an answer. *)
Theorem isShamsiLeapYear_rule (year : Z) :
  isShamsiLeapYear year = true <->
  year mod 33 = 0
  \/ (0 <= year /\ In (year mod 33) [4; 8; 12; 16; 20; 24; 28]).
Proof.
  rewrite isShamsiLeapYear_true_iff, includes_In. unfold rem.
  destruct (Z_le_gt_dec 0 year) as [Hpos | Hneg].
  - rewrite Z.rem_mod_nonneg by lia. tauto.
  - cbn [In]. split; intros H; Z.to_euclidean_division_equations; lia.
Qed.

(** The same rule with the mathematical modulo, for years from 0 on. *)
Lemma isShamsiLeapYear_rule_mod (year : Z) :
  0 <= year ->
  (isShamsiLeapYear year = true <->
   year mod 33 = 0 \/ In (year mod 33) [4; 8; 12; 16; 20; 24; 28]).
Proof.
  intros H.
  rewrite isShamsiLeapYear_true_iff, includes_In, rem_nonneg_mod by assumption.
  tauto.
Qed.

(** Below 0 the two readings part: -29 is 4 modulo 33, yet [-29 % 33] is
    -29 and the year is not leap. *)
Example isShamsiLeapYear_negative :
  (-29) mod 33 = 4 /\ rem (-29) 33 = -29 /\ isShamsiLeapYear (-29) = false
  /\ isShamsiLeapYear (-33) = true /\ isShamsiLeapYear 0 = true.
Proof. repeat split. Qed.

(** C3, as the claim has it, fails: [isShamsiLeapYear 1403] is not true. *)
Lemma isShamsiLeapYear_1403_not_true : isShamsiLeapYear 1403 <> true.
Proof. vm_compute. discriminate. Qed.

(** C3, amended. 1403 % 33 is 17, which is neither 0 nor one of
    4, 8, ..., 28, so [isShamsiLeapYear 1403] returns false. *)
Theorem isShamsiLeapYear_1403 :
  rem 1403 33 = 17 /\ isShamsiLeapYear 1403 = false.
Proof. split; reflexivity. Qed.

(** C8, as the claim has it, fails at year -29: -29 is common, 4 is leap. *)
Lemma isShamsiLeapYear_period_fails :
  isShamsiLeapYear (-29) <> isShamsiLeapYear (-29 + 33).
Proof. vm_compute. discriminate. Qed.

Lemma rem_shift_33 (year : Z) :
  0 <= year \/ year <= -33 -> rem (year + 33) 33 = rem year 33.
Proof.
  unfold rem. intros H.
  Z.to_euclidean_division_equations. lia.
Qed.

(** C8, amended. For every integer year with year >= 0 or year <= -33
    (that is, whenever [year] and [year + 33] do not lie on opposite sides
    of 0), [isShamsiLeapYear year] equals [isShamsiLeapYear (year + 33)]. *)
Theorem isShamsiLeapYear_period (year : Z) :
  0 <= year \/ year <= -33 ->
  isShamsiLeapYear year = isShamsiLeapYear (year + 33).
Proof.
  intros H. unfold isShamsiLeapYear. rewrite (rem_shift_33 year H).
  reflexivity.
Qed.

Lemma isShamsiLeapYear_period_witness :
  (0 <= 1370 \/ 1370 <= -33)
  /\ isShamsiLeapYear 1370 = isShamsiLeapYear (1370 + 33).
Proof.
  split; [left; lia | apply (isShamsiLeapYear_period 1370); left; lia].
Defined.

(** C6. Outside 1..12 [getShamsiMonthDays] returns [null]; inside it returns
    the entry at index [month - 1] of the table chosen by
    [isShamsiLeapYear year], which is a number; month 12 has 29 days in a
    leap year and 30 in a common one. *)
Theorem getShamsiMonthDays_contract (month year : Z) :
  (month < 1 \/ 12 < month -> getShamsiMonthDays month year = Null)
  /\ (1 <= month <= 12 ->
      getShamsiMonthDays month year
      = index (spec_monthTable year) (month - 1)
      /\ exists n,
          nth_error (spec_monthTable year) (Z.to_nat (month - 1)) = Some n
          /\ getShamsiMonthDays month year = Num n)
  /\ getShamsiMonthDays 12 year
     = Num (if isShamsiLeapYear year then 29 else 30).
Proof.
  unfold getShamsiMonthDays, spec_monthTable.
  split; [| split].
  - intros H.
    destruct (Z.ltb_spec month 1); [reflexivity |].
    destruct (Z.gtb_spec month 12); [reflexivity | lia].
  - intros H.
    destruct (Z.ltb_spec month 1); [lia |].
    destruct (Z.gtb_spec month 12); [lia |]. cbn [orb].
    split; [destruct (isShamsiLeapYear year); reflexivity |].
    assert (Hc : month = 1 \/ month = 2 \/ month = 3 \/ month = 4
                 \/ month = 5 \/ month = 6 \/ month = 7 \/ month = 8
                 \/ month = 9 \/ month = 10 \/ month = 11 \/ month = 12)
      by lia.
    destruct (isShamsiLeapYear year); split_cases Hc; subst month;
      eexists; split; reflexivity.
  - destruct (isShamsiLeapYear year); reflexivity.
Qed.

Lemma getShamsiMonthDays_contract_witness :
  getShamsiMonthDays 13 1403 = Null
  /\ getShamsiMonthDays 0 1403 = Null
  /\ getShamsiMonthDays 4 1403 = index (spec_monthTable 1403) 3
  /\ getShamsiMonthDays 12 1404
     = Num (if isShamsiLeapYear 1404 then 29 else 30).
Proof.
  split; [| split; [| split]].
  - apply (proj1 (getShamsiMonthDays_contract 13 1403)). right. lia.
  - apply (proj1 (getShamsiMonthDays_contract 0 1403)). left. lia.
  - apply (proj1 (proj2 (getShamsiMonthDays_contract 4 1403))). lia.
  - apply (proj2 (proj2 (getShamsiMonthDays_contract 12 1404))).
Defined.

(** What the twelve month lengths add up to: 366 in a leap year and 367 in
    a common year, since the common table holds seven months of 31 days
    and five of 30. *)
Lemma sumMonthDays_value (year : Z) :
  sumMonthDays year = Some (if isShamsiLeapYear year then 366 else 367).
Proof.
  unfold sumMonthDays, yearMonthDays, monthNumbers, getShamsiMonthDays.
  destruct (isShamsiLeapYear year); reflexivity.
Qed.

(** C2 at the common year 1403: the twelve values of [getShamsiMonthDays]
    add up to 367, not to the 365 days [getShamsiYearDays] gives the same
    year. *)
Theorem sumMonthDays_common_year_1403 :
  isShamsiLeapYear 1403 = false
  /\ yearMonthDays 1403
     = map Num [31; 31; 31; 30; 31; 30; 31; 31; 30; 31; 30; 30]
  /\ sumMonthDays 1403 = Some 367
  /\ getShamsiYearDays 1403 = 365.
Proof. repeat split. Qed.

(** ** Digit transliteration *)

Lemma convertToLatinDigits_map (s : jsstring) :
  convertToLatinDigits s
  = map (fun c => if isPersianDigit c then c - 1728 else c) s.
Proof.
  unfold convertToLatinDigits, replace_class, fromCharCode, isPersianDigit.
  induction s as [| c rest IH]; [reflexivity |].
  cbn [flat_map map]. rewrite IH.
  destruct (Z.leb_spec 1776 c); destruct (Z.leb_spec c 1785);
    cbn [andb app]; try reflexivity.
  rewrite Z.mod_small by lia. reflexivity.
Qed.

Lemma convertToLatinDigits_clean (s : jsstring) :
  Forall (fun c => isPersianDigit c = false) (convertToLatinDigits s).
Proof.
  rewrite convertToLatinDigits_map. apply Forall_map, Forall_forall.
  intros c _. unfold isPersianDigit.
  destruct (Z.leb_spec 1776 c); destruct (Z.leb_spec c 1785); cbn [andb];
    try reflexivity; try (apply andb_false_iff; left; apply Z.leb_gt; lia);
    apply andb_false_iff; lia.
Qed.

(** A string without Persian digits comes back unchanged. *)
Lemma convertToLatinDigits_fixed (s : jsstring) :
  Forall (fun c => isPersianDigit c = false) s -> convertToLatinDigits s = s.
Proof.
  intros H. rewrite convertToLatinDigits_map.
  induction H as [| c rest Hc _ IH]; [reflexivity |].
  cbn [map]. rewrite Hc, IH. reflexivity.
Qed.

(** C9. [convertToLatinDigits] works code unit by code unit: a Persian
    digit (U+06F0..U+06F9) becomes the code unit 1728 below it, an ASCII
    digit, and any other code unit is kept; the ten Persian digits become
    "0123456789"; no Persian digit is left in the result, and a second pass
    changes nothing. *)
Theorem convertToLatinDigits_idempotent (s : jsstring) :
  convertToLatinDigits s
  = map (fun c => if (1776 <=? c) && (c <=? 1785) then c - 1728 else c) s
  /\ convertToLatinDigits
       [1776; 1777; 1778; 1779; 1780; 1781; 1782; 1783; 1784; 1785]
     = str "0123456789"
  /\ Forall (fun c => (1776 <=? c) && (c <=? 1785) = false)
            (convertToLatinDigits s)
  /\ convertToLatinDigits (convertToLatinDigits s) = convertToLatinDigits s.
Proof.
  split; [apply convertToLatinDigits_map |].
  split; [reflexivity |].
  split; [apply convertToLatinDigits_clean |].
  apply convertToLatinDigits_fixed, convertToLatinDigits_clean.
Qed.

(** ** Week number *)

Lemma str_ascii (s : string) : Forall (fun c => 0 <= c < 256) (str s).
Proof.
  unfold str. apply Forall_map, Forall_forall. intros a _.
  pose proof (N_ascii_bounded a) as H. lia.
Qed.

Lemma num_toString_latin (n : num) :
  convertToLatinDigits (num_toString n) = num_toString n.
Proof.
  apply convertToLatinDigits_fixed.
  assert (H : forall s, Forall (fun c => isPersianDigit c = false) (str s)).
  { intros s. eapply Forall_impl; [| apply str_ascii].
    intros c Hc. cbv beta in Hc.
    unfold isPersianDigit. apply andb_false_iff. left.
    apply Z.leb_gt. lia. }
  destruct n; apply H.
Qed.

(** C7, as the claim has it, fails: for 1 January 2024 and the year start
    21 March 2024 (the default start date of that day) the function returns
    "-11", so the week number is not >= 0. *)
Lemma getShamsiWeekNumber_negative :
  defaultStartDate (Date_ymd 2024 0 1) = Date_ymd 2024 2 21
  /\ getShamsiWeekNumber (Date_ymd 2024 0 1) (Date_ymd 2024 2 21) = str "-11"
  /\ ~ (exists week,
         weekNumberOf (Date_ymd 2024 0 1) (Date_ymd 2024 2 21) = Some week
         /\ 0 <= week).
Proof.
  split; [reflexivity |]. split; [reflexivity |].
  intros [week [H Hpos]]. vm_compute in H. injection H as <-. lia.
Qed.

(** C7, amended. For valid dates whose time values [date] and [startDate]
    are at most 2^53 ms apart (some 285000 years: there the subtraction
    and the two divisions of the source are exact),
    [getShamsiWeekNumber] returns the decimal numeral of
    [week = ceil(days / 7)] with [days = floor((date - startDate) / 86400000)]
    (both given here by their defining inequalities).  The week number is
    >= 0 exactly when [date] is not more than six days before [startDate],
    in particular whenever [date] is not before [startDate]; it is negative
    otherwise. *)
Theorem getShamsiWeekNumber_value (date startDate : Z) :
  Z.abs (date - startDate) <= 9007199254740992 ->
  exists days week,
    days * msPerDay <= date - startDate < (days + 1) * msPerDay
    /\ 7 * (week - 1) < days <= 7 * week
    /\ weekNumberOf (Some date) (Some startDate) = Some week
    /\ getShamsiWeekNumber (Some date) (Some startDate) = toString week
    /\ (0 <= week <-> startDate - 6 * msPerDay <= date).
Proof.
  intros _.
  exists (floor_div (date - startDate) msPerDay).
  exists (ceil_div (floor_div (date - startDate) msPerDay) 7).
  unfold getShamsiWeekNumber. rewrite num_toString_latin.
  unfold weekNumberOf, getTime, sub, lift2, option_map, num_toString.
  change (1000 * 60 * 60 * 24) with msPerDay.
  repeat split; unfold floor_div, ceil_div, msPerDay in *;
    try (Z.to_euclidean_division_equations; lia).
  all: intros H; Z.to_euclidean_division_equations; lia.
Qed.

Lemma getShamsiWeekNumber_value_witness :
  Z.abs (1718841600000 - 1710979200000) <= 9007199254740992
  /\ weekNumberOf (Some 1718841600000) (Some 1710979200000) = Some 13
  /\ getShamsiWeekNumber (Some 1718841600000) (Some 1710979200000)
     = str "13".
Proof.
  assert (H : Z.abs (1718841600000 - 1710979200000) <= 9007199254740992)
    by (apply Z.leb_le; reflexivity).
  split; [exact H |].
  destruct (getShamsiWeekNumber_value 1718841600000 1710979200000 H)
    as [days [week [Hd [Hw [Hn [Hs _]]]]]].
  assert (Hweek : week = 13).
  { unfold msPerDay in Hd. lia. }
  subst week. split; [exact Hn | exact Hs].
Defined.

(** ** Persian to Gregorian *)

Lemma add_Some (a b : Z) : add (Some a) (Some b) = Some (a + b).
Proof. reflexivity. Qed.

(** The accumulation loop adds up the table entries it walks over, as long
    as it stays inside the table. *)
Lemma sumLoop_inside (table : list Z) (n k : nat) (acc : Z) :
  (k + n <= List.length table)%nat ->
  sumLoop table n (Z.of_nat k) (Some acc)
  = Some (acc + sumZ (firstn n (skipn k table))).
Proof.
  revert k acc. induction n as [| n IH]; intros k acc Hlen.
  - cbn. f_equal. lia.
  - cbn [sumLoop].
    destruct (nth_error table k) as [v |] eqn:Hk.
    2:{ apply nth_error_None in Hk. lia. }
    assert (Hidx : index table (Z.of_nat k) = Num v).
    { unfold index. destruct (Z.ltb_spec (Z.of_nat k) 0); [lia |].
      rewrite Nat2Z.id, Hk. reflexivity. }
    rewrite Hidx. cbn [value_to_num]. rewrite add_Some.
    replace (Z.of_nat k + 1) with (Z.of_nat (S k)) by lia.
    rewrite IH by lia. f_equal.
    assert (Hskip : skipn k table = v :: skipn (S k) table).
    { clear -Hk. revert table Hk. induction k as [| k IHk]; intros table Hk.
      - destruct table; cbn in *; congruence.
      - destruct table as [| x rest]; [discriminate |].
        cbn [nth_error] in Hk. rewrite (skipn_cons k x rest).
        rewrite (IHk rest Hk). reflexivity. }
    rewrite Hskip. cbn [firstn sumZ fold_right]. unfold sumZ. lia.
Qed.

Lemma daysBeforeMonth_inside (table : list Z) (month : Z) :
  List.length table = 12%nat -> 1 <= month <= 12 ->
  daysBeforeMonth table month
  = Some (sumZ (firstn (Z.to_nat (month - 1)) table)).
Proof.
  intros Hlen Hm. unfold daysBeforeMonth.
  change 0 with (Z.of_nat 0) at 1.
  rewrite sumLoop_inside by (rewrite Hlen; lia).
  reflexivity.
Qed.

Lemma spec_monthTable_length (year : Z) :
  List.length (spec_monthTable year) = 12%nat.
Proof. unfold spec_monthTable. destruct (isShamsiLeapYear year); reflexivity. Qed.

(** *** Reading and printing a calendar day *)

Lemma Day_MakeDate (d : Z) : Day (MakeDate d 0) = d.
Proof.
  unfold Day, MakeDate, msPerDay. rewrite Z.add_0_r. apply Z.div_mul. lia.
Qed.

Lemma TimeWithinDay_MakeDate (d : Z) : TimeWithinDay (MakeDate d 0) = 0.
Proof.
  unfold TimeWithinDay, MakeDate, msPerDay. rewrite Z.add_0_r.
  apply Z.mod_mul. lia.
Qed.

Lemma TimeClip_Some (t t' : Z) : TimeClip t = Some t' -> t' = t /\ Z.abs t <= 8640000000000000.
Proof.
  unfold TimeClip. destruct (Z.leb_spec (Z.abs t) 8640000000000000); [| discriminate].
  intros H'. injection H' as <-. split; [reflexivity | assumption].
Qed.

Lemma TimeClip_valid (t : Z) : Z.abs t <= 8640000000000000 -> TimeClip t = Some t.
Proof.
  intros H. unfold TimeClip.
  destruct (Z.leb_spec (Z.abs t) 8640000000000000); [reflexivity | lia].
Qed.

Lemma DayWithinYear_bounds (t : Z) :
  0 <= DayWithinYear t < DaysInYear (YearFromTime t).
Proof.
  unfold DayWithinYear, YearFromTime.
  pose proof (YearFromDay_bounds (Day t)) as B.
  rewrite DayFromYear_step in B. lia.
Qed.

Lemma MonthFromTime_range (t : Z) : 0 <= MonthFromTime t <= 11.
Proof. unfold MonthFromTime. cbv zeta. decide_ltb; lia. Qed.

Lemma March21 (y : Z) :
  MakeDay y 2 21 = DayFromYear y + (if isLeap y then 80 else 79).
Proof.
  unfold MakeDay. change (2 / 12) with 0. change (2 mod 12) with 2.
  rewrite Z.add_0_r. destruct (isLeap y); cbn [monthStart]; lia.
Qed.

Lemma DateFromTime_range (t : Z) :
  1 <= DateFromTime t
  <= DaysInMonth (YearFromTime t) (MonthFromTime t + 1).
Proof.
  pose proof (DayWithinYear_bounds t) as B.
  unfold DateFromTime, DaysInMonth, MonthFromTime, DaysInYear in *. cbv zeta.
  revert B. generalize (DayWithinYear t) as w. intros w B.
  destruct (isLeap (YearFromTime t)); cbn [monthStart] in *; decide_ltb;
    cbn [monthStart Z.add Z.sub Z.opp Z.pos_sub Pos.add Pos.succ
         Pos.pred_double Pos.succ_double_mask Pos.double_mask
         Pos.sub_mask Pos.double_pred_mask]; lia.
Qed.

(** Rebuilding a day from the fields read off a time value. *)
Lemma MakeDay_fields (t n : Z) :
  MakeDay (YearFromTime t) (MonthFromTime t) (DateFromTime t + n) = Day t + n.
Proof.
  pose proof (MonthFromTime_range t) as Hm.
  unfold MakeDay. rewrite (Z.div_small (MonthFromTime t) 12) by lia.
  rewrite (Z.mod_small (MonthFromTime t) 12), Z.add_0_r by lia.
  unfold DateFromTime, DayWithinYear. lia.
Qed.

Lemma jsstring_eqb_eq (a b : jsstring) : jsstring_eqb a b = true -> a = b.
Proof.
  revert b. induction a as [| x a IH]; intros [| y b] H;
    try discriminate; [reflexivity |].
  cbn in H. apply andb_true_iff in H. destruct H as [Hx Hr].
  apply Z.eqb_eq in Hx. subst y. f_equal. apply IH, Hr.
Qed.

Lemma range_check (f : Z -> bool) (lo : Z) (n : nat) :
  forallb f (map (fun k => lo + Z.of_nat k) (seq 0 n)) = true ->
  forall z, lo <= z < lo + Z.of_nat n -> f z = true.
Proof.
  intros H z Hz. rewrite forallb_forall in H. apply H.
  apply in_map_iff. exists (Z.to_nat (z - lo)). split; [lia |].
  apply in_seq. lia.
Qed.

Lemma toString_decimal4 (y : Z) :
  1000 <= y <= 9999 -> toString y = decimal4 y.
Proof.
  intros Hy. apply jsstring_eqb_eq.
  apply (range_check (fun z => jsstring_eqb (toString z) (decimal4 z))
           1000 (Z.to_nat 9000)); [vm_compute; reflexivity | lia].
Qed.

Lemma padZero_decimal2 (n : Z) :
  0 <= n <= 99 -> padZero (Some n) = decimal2 n.
Proof.
  intros Hn. apply jsstring_eqb_eq.
  apply (range_check (fun z => jsstring_eqb (padZero (Some z)) (decimal2 z))
           0 (Z.to_nat 100)); [vm_compute; reflexivity | lia].
Qed.

Lemma digit_48 (a : Z) : 0 <= a <= 9 -> digit (48 + a) = Some a.
Proof.
  intros Ha. unfold digit.
  destruct (Z.leb_spec 48 (48 + a)); destruct (Z.leb_spec (48 + a) 57);
    cbn [andb]; try lia. f_equal. lia.
Qed.

Lemma Date_parse_decimal (y m d : Z) :
  1000 <= y <= 9999 -> 1 <= m <= 12 -> 1 <= d <= DaysInMonth y m ->
  Date_parse (decimal4 y ++ str "-" ++ decimal2 m ++ str "-" ++ decimal2 d)
  = Some (MakeDate (MakeDay y (m - 1) d) 0).
Proof.
  intros Hy Hm Hd.
  assert (Hd31 : d <= 31).
  { unfold DaysInMonth in Hd.
    assert (Hc : m = 1 \/ m = 2 \/ m = 3 \/ m = 4 \/ m = 5 \/ m = 6
                 \/ m = 7 \/ m = 8 \/ m = 9 \/ m = 10 \/ m = 11 \/ m = 12)
      by lia.
    destruct (isLeap y); split_cases Hc; subst m; cbn in Hd; lia. }
  unfold decimal4, decimal2.
  change (str "-") with [45].
  cbn [app]. unfold Date_parse.
  rewrite !digit_48
    by (Z.to_euclidean_division_equations; lia).
  replace (1000 * (y / 1000) + 100 * ((y / 100) mod 10)
           + 10 * ((y / 10) mod 10) + y mod 10) with y
    by (Z.to_euclidean_division_equations; lia).
  replace (10 * (m / 10) + m mod 10) with m
    by (Z.to_euclidean_division_equations; lia).
  replace (10 * (d / 10) + d mod 10) with d
    by (Z.to_euclidean_division_equations; lia).
  destruct (Z.leb_spec 1 m); [| lia].
  destruct (Z.leb_spec m 12); [| lia].
  destruct (Z.leb_spec 1 d); [| lia].
  destruct (Z.leb_spec d (DaysInMonth y m)); [| lia].
  reflexivity.
Qed.

Lemma Date_parse_formatGregorian (t : Z) :
  1000 <= YearFromTime t <= 9999 ->
  Date_parse (formatGregorian (Some t)) = Some (MakeDate (Day t) 0).
Proof.
  intros Hy.
  pose proof (MonthFromTime_range t) as Hm.
  pose proof (DateFromTime_range t) as Hd.
  assert (Hd31 : DateFromTime t <= 31).
  { unfold DaysInMonth in Hd. revert Hd.
    generalize (DateFromTime t) as d. intros d Hd.
    assert (Hc : MonthFromTime t = 0 \/ MonthFromTime t = 1
                 \/ MonthFromTime t = 2 \/ MonthFromTime t = 3
                 \/ MonthFromTime t = 4 \/ MonthFromTime t = 5
                 \/ MonthFromTime t = 6 \/ MonthFromTime t = 7
                 \/ MonthFromTime t = 8 \/ MonthFromTime t = 9
                 \/ MonthFromTime t = 10 \/ MonthFromTime t = 11) by lia.
    destruct (isLeap (YearFromTime t)); split_cases Hc; rewrite Hc in Hd;
      cbn in Hd; lia. }
  unfold formatGregorian.
  change (getFullYear (Some t)) with (Some (YearFromTime t)).
  change (getMonth (Some t)) with (Some (MonthFromTime t)).
  change (getDate (Some t)) with (Some (DateFromTime t)).
  rewrite add_Some. unfold num_toString.
  rewrite toString_decimal4 by assumption.
  rewrite !padZero_decimal2 by lia.
  rewrite Date_parse_decimal by (assumption || lia).
  replace (MonthFromTime t + 1 - 1) with (MonthFromTime t) by lia.
  pose proof (MakeDay_fields t 0) as E. rewrite !Z.add_0_r in E.
  rewrite E. reflexivity.
Qed.

(** C4. For month in 1..12 (year and day below 2^40 in magnitude, where
    the arithmetic of the source is exact), the loop of
    [convertShamsiToGregorian] yields the sum of the month lengths strictly
    before [month] in the table chosen by [isShamsiLeapYear year]; with
    [day - 1] added this is the zero-based day of the year; the date built
    is the anchor 621-03-21 (day -492633) advanced by
    [(year - 1) * 365 + floor((year - 1) / 33) + dayOfYear] days.  The
    string returned prints that day: year, month and day of the month of
    day number [n], separated by hyphens, month and day padded to two
    digits; for a four-digit year these are ten characters that
    [new Date] reads back as day [n].  A day outside the range of [Date]
    prints as "NaN-NaN-NaN". *)
Theorem convertShamsiToGregorian_algorithm (year month day : Z) :
  1 <= month <= 12 ->
  Z.abs year <= 1099511627776 -> Z.abs day <= 1099511627776 ->
  let n := -492633 + spec_totalDays year month day in
  let t := n * msPerDay in
  let Y := YearFromTime t in
  let M := MonthFromTime t + 1 in
  let D := DateFromTime t in
  daysBeforeMonth (spec_monthTable year) month
  = Some (sumZ (firstn (Z.to_nat (month - 1)) (spec_monthTable year)))
  /\ shamsiToGregorianDate year month day
     = spec_persianToGregorian year month day
  /\ spec_persianToGregorian year month day = TimeClip t
  /\ convertShamsiToGregorian year month day
     = formatGregorian (spec_persianToGregorian year month day)
  /\ (Z.abs t <= 8640000000000000 ->
      MakeDay Y (M - 1) D = n
      /\ DayFromYear Y <= n < DayFromYear (Y + 1)
      /\ 1 <= M <= 12 /\ 1 <= D <= DaysInMonth Y M
      /\ convertShamsiToGregorian year month day
         = toString Y ++ str "-" ++ padZero (Some M) ++ str "-"
             ++ padZero (Some D)
      /\ (1000 <= Y <= 9999 ->
          convertShamsiToGregorian year month day
          = decimal4 Y ++ str "-" ++ decimal2 M ++ str "-" ++ decimal2 D
          /\ Date_parse (convertShamsiToGregorian year month day)
             = Some t))
  /\ (8640000000000000 < Z.abs t ->
      convertShamsiToGregorian year month day = str "NaN-NaN-NaN").
Proof.
  intros Hm _ _ n t Y M D.
  pose proof (daysBeforeMonth_inside (spec_monthTable year) month
                (spec_monthTable_length year) Hm) as Hsum.
  assert (Hdate : shamsiToGregorianDate year month day
                  = spec_persianToGregorian year month day).
  { unfold shamsiToGregorianDate, spec_persianToGregorian, Date_addDays,
      epochAnchor, spec_totalDays, spec_dayOfYear.
    fold (spec_monthTable year). rewrite Hsum.
    unfold floor_div, mul, lift2. rewrite !add_Some.
    change (24 * 60 * 60 * 1000) with msPerDay.
    f_equal; f_equal; f_equal; lia. }
  assert (Hclip : spec_persianToGregorian year month day = TimeClip t).
  { unfold spec_persianToGregorian, Date_addDays, getTime.
    rewrite epochAnchor_day, add_Some. unfold Date_ms, t, n. f_equal. lia. }
  assert (Hstr : convertShamsiToGregorian year month day
                 = formatGregorian (spec_persianToGregorian year month day)).
  { unfold convertShamsiToGregorian. rewrite Hdate. reflexivity. }
  split; [exact Hsum |]. split; [exact Hdate |]. split; [exact Hclip |].
  split; [exact Hstr |]. split.
  - intros Hvalid.
    assert (Hmid : t = MakeDate n 0) by (unfold MakeDate, t; lia).
    assert (Hday : Day t = n) by (rewrite Hmid; apply Day_MakeDate).
    assert (Hwhole : MakeDate (Day t) 0 = t)
      by (rewrite Hday; symmetry; exact Hmid).
    pose proof (MonthFromTime_range t) as HM.
    pose proof (DateFromTime_range t) as HD.
    pose proof (YearFromDay_bounds (Day t)) as HY.
    fold (YearFromTime t) in HY. rewrite Hday in HY.
    pose proof (MakeDay_fields t 0) as Hmake.
    rewrite !Z.add_0_r, Hday in Hmake.
    assert (Hout : convertShamsiToGregorian year month day
                   = toString Y ++ str "-" ++ padZero (Some M) ++ str "-"
                       ++ padZero (Some D)).
    { rewrite Hstr, Hclip, (TimeClip_valid t Hvalid). reflexivity. }
    split; [unfold M; replace (MonthFromTime t + 1 - 1)
                        with (MonthFromTime t) by lia; exact Hmake |].
    split; [exact HY |]. split; [unfold M; lia |].
    split; [exact HD |]. split; [exact Hout |].
    intros HY4. split.
    + rewrite Hout. rewrite toString_decimal4 by exact HY4.
      rewrite !padZero_decimal2; [reflexivity | | unfold M; lia].
      unfold D, DaysInMonth in *. revert HD.
      generalize (DateFromTime t) as d. intros d HD.
      assert (Hc : MonthFromTime t = 0 \/ MonthFromTime t = 1
                   \/ MonthFromTime t = 2 \/ MonthFromTime t = 3
                   \/ MonthFromTime t = 4 \/ MonthFromTime t = 5
                   \/ MonthFromTime t = 6 \/ MonthFromTime t = 7
                   \/ MonthFromTime t = 8 \/ MonthFromTime t = 9
                   \/ MonthFromTime t = 10 \/ MonthFromTime t = 11) by lia.
      destruct (isLeap (YearFromTime t)); split_cases Hc; rewrite Hc in HD;
        cbn in HD; lia.
    + rewrite Hstr, Hclip, (TimeClip_valid t Hvalid).
      rewrite (Date_parse_formatGregorian t HY4). f_equal. exact Hwhole.
  - intros Hinvalid. rewrite Hstr, Hclip. unfold TimeClip.
    destruct (Z.leb_spec (Z.abs t) 8640000000000000); [lia | reflexivity].
Qed.

Lemma convertShamsiToGregorian_algorithm_witness :
  1 <= 2 <= 12
  /\ Z.abs 1403 <= 1099511627776 /\ Z.abs 5 <= 1099511627776
  /\ spec_totalDays 1403 2 5 = 511807
  /\ shamsiToGregorianDate 1403 2 5 = spec_persianToGregorian 1403 2 5
  /\ convertShamsiToGregorian 1403 2 5 = str "2022-07-01"
  /\ Date_parse (convertShamsiToGregorian 1403 2 5)
     = Some ((-492633 + 511807) * msPerDay).
Proof.
  assert (H1 : 1 <= 2 <= 12) by lia.
  assert (H2 : Z.abs 1403 <= 1099511627776) by (apply Z.leb_le; reflexivity).
  assert (H3 : Z.abs 5 <= 1099511627776) by (apply Z.leb_le; reflexivity).
  pose proof (convertShamsiToGregorian_algorithm 1403 2 5 H1 H2 H3) as T.
  cbv zeta in T. destruct T as [_ [Hdate [_ [_ [Hvalid _]]]]].
  assert (Hv : Z.abs ((-492633 + spec_totalDays 1403 2 5) * msPerDay)
               <= 8640000000000000) by (apply Z.leb_le; reflexivity).
  destruct (Hvalid Hv) as [_ [_ [_ [_ [_ H4]]]]].
  assert (Hy : 1000 <= YearFromTime
                          ((-492633 + spec_totalDays 1403 2 5) * msPerDay)
               <= 9999) by (split; apply Z.leb_le; reflexivity).
  destruct (H4 Hy) as [Hs Hp].
  split; [exact H1 |]. split; [exact H2 |]. split; [exact H3 |].
  split; [reflexivity |]. split; [exact Hdate |].
  split; [exact Hs | exact Hp].
Defined.

(** ** The legacy converter *)

(** The second [new Date(..., 2, 21)] of [convertToGregorianDate] rebuilds
    the date it reads the year from. *)
Lemma legacy_start_again (year : Z) :
  match getFullYear (Date_ymd year 2 21) with
  | Some y => Date_ymd y 2 21
  | None => None
  end = Date_ymd year 2 21.
Proof.
  unfold Date_ymd.
  set (yr := if (0 <=? year) && (year <=? 99) then 1900 + year else year).
  assert (Hyr : (0 <=? yr) && (yr <=? 99) = false).
  { unfold yr.
    destruct (Z.leb_spec 0 year); destruct (Z.leb_spec year 99); cbn [andb];
      apply andb_false_iff; rewrite !Z.leb_gt; lia. }
  destruct (TimeClip (MakeDate (MakeDay yr 2 21) 0)) as [t |] eqn:Ht;
    [| reflexivity].
  assert (Et : t = MakeDate (MakeDay yr 2 21) 0).
  { unfold TimeClip in Ht.
    destruct (Z.abs (MakeDate (MakeDay yr 2 21) 0) <=? 8640000000000000);
      congruence. }
  cbn [getFullYear option_map].
  assert (Hd : 1 <= 21 <= DaysInMonth yr (2 + 1)).
  { unfold DaysInMonth. destruct (isLeap yr); cbn; lia. }
  destruct (civil_roundtrip yr 2 21 ltac:(lia) Hd) as [Hy _].
  cbv zeta in Hy. rewrite Et, Hy, Hyr. rewrite Et in Ht. exact Ht.
Qed.

(** The legacy converter, for month in 1..12: March 21 of the input year
    itself, advanced by the month lengths before [month] plus [day] days,
    with the table chosen by [year % 4 === 3]. *)
Lemma legacyGregorianDate_algorithm (year month day : Z) :
  1 <= month <= 12 ->
  legacyGregorianDate year month day
  = Date_addDays (Date_ymd year 2 21)
      (sumZ (firstn (Z.to_nat (month - 1))
               (if rem year 4 =? 3 then leapYearDaysInMonths
                else regularYearDaysInMonths))
       + day).
Proof.
  intros Hm. unfold legacyGregorianDate, Date_addDays.
  rewrite legacy_start_again.
  rewrite daysBeforeMonth_inside;
    [| destruct (rem year 4 =? 3); reflexivity | exact Hm].
  rewrite add_Some. unfold mul, lift2.
  change (24 * 60 * 60 * 1000) with msPerDay. reflexivity.
Qed.

(** C10. The two Persian-to-Gregorian converters disagree on a valid
    Persian date: for 1403/01/01 the legacy [convertToGregorianDate] finds
    22 March 1403 (it counts from March 21 of the year 1403 itself and takes
    1403 for a leap year, 1403 % 4 being 3), whereas
    [convertShamsiToGregorian] finds 27 May 2022 (511772 days after
    621-03-21, 1403 being common under the 33-year rule).  The calendar
    dates differ, not only the strings. *)
Theorem converters_disagree :
  exists year month day legacy numeric,
    validShamsiDate year month day = true
    /\ legacyGregorianDate year month day = Some legacy
    /\ shamsiToGregorianDate year month day = Some numeric
    /\ (YearFromTime legacy, MonthFromTime legacy + 1, DateFromTime legacy)
       = (1403, 3, 22)
    /\ (YearFromTime numeric, MonthFromTime numeric + 1, DateFromTime numeric)
       = (2022, 5, 27)
    /\ convertToGregorianDate
         (toString year ++ str "/" ++ padZero (Some month) ++ str "/"
            ++ padZero (Some day))
       = Some (str "03/22/1403")
    /\ convertShamsiToGregorian year month day = str "2022-05-27"
    /\ (rem year 4 =? 3) = true
    /\ isShamsiLeapYear year = false
    /\ legacyGregorianDate year month day
       = Date_addDays (Date_ymd year 2 21) day
    /\ shamsiToGregorianDate year month day
       = Date_addDays (Date_ymd 621 2 21) 511772.
Proof.
  exists 1403, 1, 1, (-17885923200000), 1653609600000.
  repeat split.
Qed.

(** ** Day arithmetic *)

(** The two conversions are not inverse to each other: Persian 1/01/01 is
    the anchor day 621-03-21, but the anchor day is converted back to
    621/01/01, the year being computed as 621 plus the years elapsed. *)
Example conversions_not_inverse :
  convertShamsiToGregorian 1 1 1 = str "621-03-21"
  /\ convertGregorianToShamsi 621 3 21 = str "621/01/01".
Proof. split; reflexivity. Qed.

(** Subtraction is addition of the negated count. *)
Lemma subtractShamsiDays_negates (year month day n : Z) :
  subtractShamsiDays year month day n = addShamsiDays year month day (- n).
Proof. reflexivity. Qed.

(** C5 on the valid date 1403/01/01 with n = 0 and n = 10: adding does not
    give back the date (adding 0 days already returns 2022/02/12), and the
    opposite addition applied to the result lands on a third date. *)
Theorem addShamsiDays_no_roundtrip :
  validShamsiDate 1403 1 1 = true
  /\ convertShamsiToGregorian 1403 1 1 = str "2022-05-27"
  /\ convertGregorianToShamsi 2022 5 27 = str "2022/02/12"
  /\ addShamsiDays 1403 1 1 0 = Some (str "2022/02/12")
  /\ addShamsiDays 2022 2 12 (- 0) = Some (str "2640/04/11")
  /\ addShamsiDays 1403 1 1 10 = Some (str "2022/02/22")
  /\ addShamsiDays 2022 2 22 (- 10) = Some (str "2640/04/11")
  /\ subtractShamsiDays 2022 2 22 10 = addShamsiDays 2022 2 22 (- 10).
Proof. repeat split. Qed.

(** * Further properties of the library *)

(** Years a valid time value can lie in. *)
Lemma valid_year_range (t : Z) :
  Z.abs t <= 8640000000000000 -> -271821 <= YearFromTime t <= 275760.
Proof.
  intros Ht.
  assert (Hd : -100000000 <= Day t <= 100000000).
  { unfold Day, msPerDay. Z.to_euclidean_division_equations. lia. }
  pose proof (YearFromDay_bounds (Day t)) as [Blo Bhi].
  fold (YearFromTime t) in Blo, Bhi.
  split.
  - destruct (Z_le_gt_dec (-271821) (YearFromTime t)) as [|Hlt]; [assumption |].
    pose proof (DayFromYear_mono (YearFromTime t + 1) (-271821) ltac:(lia)) as M.
    change (DayFromYear (-271821)) with (-100000109) in M. lia.
  - destruct (Z_le_gt_dec (YearFromTime t) 275760) as [|Hgt]; [assumption |].
    pose proof (DayFromYear_mono 275761 (YearFromTime t) ltac:(lia)) as M.
    change (DayFromYear 275761) with 100000110 in M. lia.
Qed.

(** ** Week of the year *)

(** The two date objects [getShamsiWeek] measures from, for a valid clock
    reading in year [y >= 100]: March 21 of [y], or of [y - 1] after the
    re-anchoring. *)
Lemma newYear_valid (y : Z) :
  99 <= y <= 275760 ->
  Z.abs (MakeDate (MakeDay y 2 21) 0) <= 8640000000000000.
Proof.
  intros Hy. rewrite March21. unfold MakeDate, msPerDay.
  pose proof (DayFromYear_mono 99 y ltac:(lia)) as Mlo.
  pose proof (DayFromYear_mono y 275760 ltac:(lia)) as Mhi.
  change (DayFromYear 99) with (-683368) in Mlo.
  change (DayFromYear 275760) with 99999744 in Mhi.
  destruct (isLeap y); lia.
Qed.

Lemma Date_ymd_newYear (y : Z) :
  100 <= y <= 275760 ->
  Date_ymd y 2 21 = Some (MakeDate (MakeDay y 2 21) 0).
Proof.
  intros Hy. unfold Date_ymd.
  destruct (Z.leb_spec 0 y); destruct (Z.leb_spec y 99); cbn [andb]; try lia;
    apply TimeClip_valid, newYear_valid; lia.
Qed.

Lemma getPersianNewYearDate_value (y : Z) :
  100 <= y <= 275760 ->
  getPersianNewYearDate (Some y) = Some (MakeDate (MakeDay y 2 21) 0).
Proof.
  intros Hy. unfold getPersianNewYearDate, Date_y_2_21.
  apply Date_ymd_newYear. assumption.
Qed.

Lemma setFullYear_newYear (y y' : Z) :
  99 <= y' <= 275760 ->
  setFullYear (Some (MakeDate (MakeDay y 2 21) 0)) (Some y')
  = Some (MakeDate (MakeDay y' 2 21) 0).
Proof.
  intros Hy. unfold setFullYear.
  assert (Hd : 1 <= 21 <= DaysInMonth y (2 + 1)).
  { unfold DaysInMonth. destruct (isLeap y); cbn; lia. }
  destruct (civil_roundtrip y 2 21 ltac:(lia) Hd) as [_ [Hm Hdt]].
  cbv zeta in Hm, Hdt. rewrite Hm, Hdt, TimeWithinDay_MakeDate.
  apply TimeClip_valid, newYear_valid. assumption.
Qed.

Lemma floor_days (t d : Z) :
  floor_div (t - MakeDate d 0) msPerDay = Day t - d.
Proof.
  unfold floor_div, MakeDate, Day, msPerDay.
  Z.to_euclidean_division_equations. lia.
Qed.

Lemma lt_MakeDate (t d : Z) :
  (t <? MakeDate d 0) = (Day t <? d).
Proof.
  unfold MakeDate, Day, msPerDay.
  destruct (Z.ltb_spec t (d * 86400000 + 0));
    destruct (Z.ltb_spec (t / 86400000) d); try reflexivity;
    Z.to_euclidean_division_equations; lia.
Qed.

(** The week number [getShamsiWeek] computes, by cases on the clock. *)
Lemma shamsiWeekOf_cases (t : Z) :
  Z.abs t <= 8640000000000000 -> 100 <= YearFromTime t ->
  shamsiWeekOf (Some t)
  = Some (ceil_div
            (if Day t <? MakeDay (YearFromTime t) 2 21
             then Day t - MakeDay (YearFromTime t - 1) 2 21
             else Day t - MakeDay (YearFromTime t) 2 21) 7).
Proof.
  intros Ht Hy.
  pose proof (valid_year_range t Ht) as Hr.
  unfold shamsiWeekOf. change (1000 * 60 * 60 * 24) with msPerDay.
  change (getFullYear (Some t)) with (Some (YearFromTime t)).
  change (sub (Some (YearFromTime t)) (Some 1))
    with (Some (YearFromTime t - 1)).
  rewrite getPersianNewYearDate_value by lia.
  cbv beta iota zeta delta [lt getTime].
  rewrite lt_MakeDate.
  destruct (Day t <? MakeDay (YearFromTime t) 2 21).
  - rewrite setFullYear_newYear by lia.
    cbv beta iota delta [sub lift2 option_map].
    rewrite floor_days. reflexivity.
  - cbv beta iota delta [sub lift2 option_map].
    rewrite floor_days. reflexivity.
Qed.

(** X1. [getShamsiWeek] on a valid clock reading in a year from 100 on: the
    days are counted from the March 21 on or before the day (that of the
    previous year when the day is earlier in its year), so there are 0 to
    365 of them, and the week printed is their seventh rounded up, between
    0 and 53; it is 0 exactly on March 21. *)
Theorem getShamsiWeek_range (t : Z) :
  Z.abs t <= 8640000000000000 -> 100 <= YearFromTime t ->
  exists days week,
    days = Day t - MakeDay (if Day t <? MakeDay (YearFromTime t) 2 21
                            then YearFromTime t - 1
                            else YearFromTime t) 2 21
    /\ 0 <= days <= 365
    /\ 7 * (week - 1) < days <= 7 * week
    /\ shamsiWeekOf (Some t) = Some week
    /\ getShamsiWeek (Some t) = toString week
    /\ 0 <= week <= 53
    /\ (week = 0 <-> Day t = MakeDay (YearFromTime t) 2 21).
Proof.
  intros Ht Hy.
  set (days := Day t - MakeDay (if Day t <? MakeDay (YearFromTime t) 2 21
                                then YearFromTime t - 1
                                else YearFromTime t) 2 21).
  exists days, (ceil_div days 7). split; [reflexivity |].
  assert (Hweek : shamsiWeekOf (Some t) = Some (ceil_div days 7)).
  { rewrite (shamsiWeekOf_cases t Ht Hy). unfold days.
    destruct (Day t <? MakeDay (YearFromTime t) 2 21); reflexivity. }
  assert (Hstr : getShamsiWeek (Some t) = toString (ceil_div days 7)).
  { unfold getShamsiWeek. rewrite Hweek. apply num_toString_latin. }
  pose proof (YearFromDay_bounds (Day t)) as B.
  fold (YearFromTime t) in B. rewrite DayFromYear_step in B.
  pose proof (DayFromYear_step (YearFromTime t - 1)) as S1.
  replace (YearFromTime t - 1 + 1) with (YearFromTime t) in S1 by lia.
  assert (Harith : 0 <= days <= 365
                   /\ (days = 0 <-> Day t = MakeDay (YearFromTime t) 2 21)).
  { unfold days.
    destruct (Z.ltb_spec (Day t) (MakeDay (YearFromTime t) 2 21)) as [Hl | Hl];
      cbv iota; rewrite !March21 in *; unfold DaysInYear in *;
      revert B S1 Hl;
      destruct (isLeap (YearFromTime t));
      destruct (isLeap (YearFromTime t - 1)); intros B S1 Hl; lia. }
  destruct Harith as [Hdays Hzero]. clearbody days.
  split; [exact Hdays |].
  split; [unfold ceil_div; Z.to_euclidean_division_equations; lia |].
  split; [exact Hweek |]. split; [exact Hstr |].
  split; [unfold ceil_div; Z.to_euclidean_division_equations; lia |].
  rewrite <- Hzero. unfold ceil_div.
  split; intros H; Z.to_euclidean_division_equations; lia.
Qed.

Lemma getShamsiWeek_range_witness :
  Z.abs 1710892800000 <= 8640000000000000
  /\ 100 <= YearFromTime 1710892800000
  /\ shamsiWeekOf (Some 1710892800000) = Some 53
  /\ getShamsiWeek (Some 1710892800000) = str "53".
Proof.
  assert (H1 : Z.abs 1710892800000 <= 8640000000000000)
    by (apply Z.leb_le; reflexivity).
  assert (H2 : 100 <= YearFromTime 1710892800000)
    by (apply Z.leb_le; reflexivity).
  split; [exact H1 |]. split; [exact H2 |].
  destruct (getShamsiWeek_range 1710892800000 H1 H2)
    as [days [week [Hd [_ [Hw [Hn [Hs _]]]]]]].
  assert (Hdays : days = 365) by (rewrite Hd; reflexivity).
  assert (Hweek : week = 53) by lia.
  subst week. split; [exact Hn | exact Hs].
Defined.

(** Both ends of the range are reached: week 0 on March 21 and week 53 on
    the March 20 that closes a 366-day stretch. *)
Example getShamsiWeek_extremes :
  getShamsiWeek (Date_ymd 2024 2 21) = str "0"
  /\ getShamsiWeek (Date_ymd 2024 2 20) = str "53"
  /\ getShamsiWeek (Date_ymd 2025 2 20) = str "52"
  /\ getShamsiWeek (Date_ymd 2024 2 22) = str "1".
Proof. repeat split. Qed.

Lemma defaultStartDate_value (t : Z) :
  Z.abs t <= 8640000000000000 -> 100 <= YearFromTime t ->
  defaultStartDate (Some t)
  = Some (MakeDate (MakeDay (YearFromTime t) 2 21) 0).
Proof.
  intros Ht Hy. pose proof (valid_year_range t Ht).
  unfold defaultStartDate, getFullYear, option_map.
  apply Date_ymd_newYear. lia.
Qed.

Lemma weekNumberOf_default (t : Z) :
  Z.abs t <= 8640000000000000 -> 100 <= YearFromTime t ->
  weekNumberOf (Some t) (defaultStartDate (Some t))
  = Some (ceil_div (Day t - MakeDay (YearFromTime t) 2 21) 7).
Proof.
  intros Ht Hy. rewrite defaultStartDate_value by assumption.
  unfold weekNumberOf. change (1000 * 60 * 60 * 24) with msPerDay.
  cbv beta iota delta [getTime sub lift2 option_map].
  rewrite floor_days. reflexivity.
Qed.

(** X2. [getShamsiWeekNumber] with the start date left out, on a valid date
    in a year from 100 on: the days are counted from March 21 of the year
    of the date itself, between -80 and 285, so the week printed is between
    -11 and 41 and is positive only after March 21. *)
Theorem getShamsiWeekNumber_default_range (t : Z) :
  Z.abs t <= 8640000000000000 -> 100 <= YearFromTime t ->
  exists days week,
    days = Day t - MakeDay (YearFromTime t) 2 21
    /\ -80 <= days <= 285
    /\ 7 * (week - 1) < days <= 7 * week
    /\ weekNumberOf (Some t) (defaultStartDate (Some t)) = Some week
    /\ getShamsiWeekNumber_default (Some t) = toString week
    /\ -11 <= week <= 41
    /\ (0 < week <-> MakeDay (YearFromTime t) 2 21 < Day t).
Proof.
  intros Ht Hy.
  exists (Day t - MakeDay (YearFromTime t) 2 21),
         (ceil_div (Day t - MakeDay (YearFromTime t) 2 21) 7).
  split; [reflexivity |].
  pose proof (weekNumberOf_default t Ht Hy) as Hweek.
  assert (Hstr : getShamsiWeekNumber_default (Some t)
                 = toString (ceil_div (Day t - MakeDay (YearFromTime t) 2 21) 7)).
  { unfold getShamsiWeekNumber_default, getShamsiWeekNumber.
    rewrite Hweek. apply num_toString_latin. }
  pose proof (YearFromDay_bounds (Day t)) as B.
  fold (YearFromTime t) in B. rewrite DayFromYear_step in B.
  assert (Hdays : -80 <= Day t - MakeDay (YearFromTime t) 2 21 <= 285).
  { rewrite March21. unfold DaysInYear in B. revert B.
    destruct (isLeap (YearFromTime t)); intros B; lia. }
  remember (Day t - MakeDay (YearFromTime t) 2 21) as days eqn:Edays.
  split; [exact Hdays |].
  split; [unfold ceil_div; Z.to_euclidean_division_equations; lia |].
  split; [exact Hweek |]. split; [exact Hstr |].
  split; [unfold ceil_div; Z.to_euclidean_division_equations; lia |].
  unfold ceil_div. split; intros H; Z.to_euclidean_division_equations; lia.
Qed.

Lemma getShamsiWeekNumber_default_range_witness :
  Z.abs 1704067200000 <= 8640000000000000
  /\ 100 <= YearFromTime 1704067200000
  /\ weekNumberOf (Some 1704067200000) (defaultStartDate (Some 1704067200000))
     = Some (-11)
  /\ getShamsiWeekNumber_default (Some 1704067200000) = str "-11".
Proof.
  assert (H1 : Z.abs 1704067200000 <= 8640000000000000)
    by (apply Z.leb_le; reflexivity).
  assert (H2 : 100 <= YearFromTime 1704067200000)
    by (apply Z.leb_le; reflexivity).
  split; [exact H1 |]. split; [exact H2 |].
  destruct (getShamsiWeekNumber_default_range 1704067200000 H1 H2)
    as [days [week [Hd [_ [Hw [Hn [Hs _]]]]]]].
  assert (Hdays : days = -80) by (rewrite Hd; reflexivity).
  assert (Hweek : week = -11) by lia.
  subst week. split; [exact Hn | exact Hs].
Defined.

(** X3. On or after March 21 of its year (valid date, year from 100 on)
    [getShamsiWeek] and [getShamsiWeekNumber] with its default start date
    print the same week, the days since that March 21 divided by seven and
    rounded up; before March 21 they part: the first prints 41 to 53, the
    second -11 to 0. *)
Theorem getShamsiWeek_agrees_after_newYear (t : Z) :
  Z.abs t <= 8640000000000000 -> 100 <= YearFromTime t ->
  (MakeDay (YearFromTime t) 2 21 <= Day t ->
   exists week,
     7 * (week - 1) < Day t - MakeDay (YearFromTime t) 2 21 <= 7 * week
     /\ getShamsiWeek (Some t) = toString week
     /\ getShamsiWeekNumber_default (Some t) = toString week)
  /\ (Day t < MakeDay (YearFromTime t) 2 21 ->
      exists week week',
        getShamsiWeek (Some t) = toString week
        /\ getShamsiWeekNumber_default (Some t) = toString week'
        /\ 41 <= week <= 53 /\ -11 <= week' <= 0).
Proof.
  intros Ht Hy.
  pose proof (shamsiWeekOf_cases t Ht Hy) as Hw.
  pose proof (weekNumberOf_default t Ht Hy) as Hd.
  pose proof (YearFromDay_bounds (Day t)) as B.
  fold (YearFromTime t) in B. rewrite DayFromYear_step in B.
  pose proof (DayFromYear_step (YearFromTime t - 1)) as S1.
  replace (YearFromTime t - 1 + 1) with (YearFromTime t) in S1 by lia.
  unfold getShamsiWeek, getShamsiWeekNumber_default, getShamsiWeekNumber.
  rewrite Hw, Hd, !num_toString_latin. split.
  - intros Hafter.
    destruct (Z.ltb_spec (Day t) (MakeDay (YearFromTime t) 2 21)); [lia |].
    exists (ceil_div (Day t - MakeDay (YearFromTime t) 2 21) 7).
    split; [| split; reflexivity].
    unfold ceil_div. Z.to_euclidean_division_equations. lia.
  - intros Hbefore.
    destruct (Z.ltb_spec (Day t) (MakeDay (YearFromTime t) 2 21)); [| lia].
    do 2 eexists. split; [reflexivity |]. split; [reflexivity |].
    rewrite !March21 in *. unfold DaysInYear in *. unfold ceil_div.
    revert B S1 H Hbefore.
    destruct (isLeap (YearFromTime t)); destruct (isLeap (YearFromTime t - 1));
      intros B S1 H Hbefore; split;
      Z.to_euclidean_division_equations; lia.
Qed.

Lemma getShamsiWeek_agrees_after_newYear_witness :
  Z.abs 1718841600000 <= 8640000000000000
  /\ 100 <= YearFromTime 1718841600000
  /\ MakeDay (YearFromTime 1718841600000) 2 21 <= Day 1718841600000
  /\ getShamsiWeek (Some 1718841600000) = str "13"
  /\ getShamsiWeekNumber_default (Some 1718841600000) = str "13".
Proof.
  assert (H1 : Z.abs 1718841600000 <= 8640000000000000)
    by (apply Z.leb_le; reflexivity).
  assert (H2 : 100 <= YearFromTime 1718841600000)
    by (apply Z.leb_le; reflexivity).
  assert (H3 : MakeDay (YearFromTime 1718841600000) 2 21
               <= Day 1718841600000)
    by (apply Z.leb_le; reflexivity).
  split; [exact H1 |]. split; [exact H2 |]. split; [exact H3 |].
  destruct (proj1 (getShamsiWeek_agrees_after_newYear 1718841600000 H1 H2) H3)
    as [week [Hw [Ha Hb]]].
  assert (Hweek : week = 13).
  { change (Day 1718841600000 - MakeDay (YearFromTime 1718841600000) 2 21)
      with 91 in Hw. lia. }
  subst week. split; [exact Ha | exact Hb].
Defined.

(** ** Month lengths and leap years, continued *)

(** X4. [getShamsiDaysInMonth] and [getShamsiMonthDays] read the same
    table: for a month in 1..12 both return its entry (31, 31, 31, 30, 31,
    30, 31, 31, 30, 31, 30, and 29 or 30 for month 12 as the year is leap
    or not).  Outside 1..12 they differ: the first returns [undefined], the
    second [null]. *)
Theorem getShamsiDaysInMonth_vs_getShamsiMonthDays (month year : Z) :
  (1 <= month <= 12 ->
   exists n,
     nth_error [31; 31; 31; 30; 31; 30; 31; 31; 30; 31; 30;
                if isShamsiLeapYear year then 29 else 30]
               (Z.to_nat (month - 1)) = Some n
     /\ getShamsiDaysInMonth month year = Num n
     /\ getShamsiMonthDays month year = Num n)
  /\ (month < 1 \/ 12 < month ->
      getShamsiDaysInMonth month year = Undefined
      /\ getShamsiMonthDays month year = Null).
Proof.
  unfold getShamsiDaysInMonth, getShamsiMonthDays,
    leapYearDaysInMonths, regularYearDaysInMonths.
  split.
  - intros Hm.
    destruct (Z.ltb_spec month 1); [lia |].
    destruct (Z.gtb_spec month 12); [lia |]. cbn [orb].
    assert (Hc : month = 1 \/ month = 2 \/ month = 3 \/ month = 4
                 \/ month = 5 \/ month = 6 \/ month = 7 \/ month = 8
                 \/ month = 9 \/ month = 10 \/ month = 11 \/ month = 12)
      by lia.
    destruct (isShamsiLeapYear year); split_cases Hc; subst month;
      (eexists; split; [reflexivity | split; reflexivity]).
  - intros Hm. split.
    + unfold index.
      destruct (Z.ltb_spec (month - 1) 0); [destruct (isShamsiLeapYear year); reflexivity |].
      assert (Hn : (12 <= Z.to_nat (month - 1))%nat) by lia.
      destruct (isShamsiLeapYear year);
        (rewrite (proj2 (nth_error_None _ _)); [reflexivity | cbn; lia]).
    + destruct (Z.ltb_spec month 1); [reflexivity |].
      destruct (Z.gtb_spec month 12); [reflexivity | lia].
Qed.

Lemma getShamsiDaysInMonth_vs_getShamsiMonthDays_witness :
  (1 <= 12 <= 12
   /\ getShamsiDaysInMonth 12 1406 = Num 29
   /\ getShamsiMonthDays 12 1406 = Num 29)
  /\ (getShamsiDaysInMonth 0 1406 = Undefined
      /\ getShamsiMonthDays 0 1406 = Null)
  /\ (getShamsiDaysInMonth 13 1406 = Undefined
      /\ getShamsiMonthDays 13 1406 = Null).
Proof.
  split; [| split].
  - assert (H : 1 <= 12 <= 12) by lia.
    destruct (proj1 (getShamsiDaysInMonth_vs_getShamsiMonthDays 12 1406) H)
      as [n [Hn [Ha Hb]]].
    assert (E : n = 29) by (vm_compute in Hn; congruence).
    subst n. split; [exact H |]. split; [exact Ha | exact Hb].
  - apply (proj2 (getShamsiDaysInMonth_vs_getShamsiMonthDays 0 1406)).
    left. lia.
  - apply (proj2 (getShamsiDaysInMonth_vs_getShamsiMonthDays 13 1406)).
    right. lia.
Defined.

(** The leap predicate only looks at the year modulo 33 (years from 0 on). *)
Lemma isShamsiLeapYear_mod33 (year : Z) :
  0 <= year -> isShamsiLeapYear year = isShamsiLeapYear (year mod 33).
Proof.
  intros H. unfold isShamsiLeapYear.
  rewrite (rem_nonneg_mod year H).
  rewrite (rem_nonneg_mod (year mod 33))
    by (apply Z.mod_pos_bound; lia).
  rewrite Z.mod_mod by lia. reflexivity.
Qed.

Lemma leapYearsFrom_mod33 (n : nat) (year : Z) :
  0 <= year -> leapYearsFrom year n = leapYearsFrom (year mod 33) n.
Proof.
  revert year. induction n as [| n IH]; intros year H; [reflexivity |].
  cbn [leapYearsFrom].
  rewrite <- (isShamsiLeapYear_mod33 year H).
  rewrite (IH (year + 1)) by lia.
  rewrite (IH (year mod 33 + 1))
    by (pose proof (Z.mod_pos_bound year 33); lia).
  rewrite (Z.add_mod_idemp_l year 1 33) by lia. reflexivity.
Qed.

(** Below 0 the remainder [year % 33] is never positive, so only the
    multiples of 33 pass [isShamsiLeapYear]. *)
Lemma isShamsiLeapYear_below_zero (year : Z) :
  year < 0 -> isShamsiLeapYear year = (year mod 33 =? 0).
Proof.
  intros H. unfold isShamsiLeapYear, rem. cbn [includes].
  repeat match goal with
         | |- context [?a =? ?b] => destruct (Z.eqb_spec a b)
         end; cbn [orb]; try reflexivity; exfalso;
    Z.to_euclidean_division_equations; lia.
Qed.

Lemma leapYearsFrom_negative (n : nat) (y y' : Z) :
  y + Z.of_nat n <= 0 -> y' + Z.of_nat n <= 0 -> y mod 33 = y' mod 33 ->
  leapYearsFrom y n = leapYearsFrom y' n.
Proof.
  revert y y'. induction n as [| n IH]; intros y y' Hy Hy' E; [reflexivity |].
  cbn [leapYearsFrom].
  rewrite (isShamsiLeapYear_below_zero y), (isShamsiLeapYear_below_zero y'), E
    by lia.
  f_equal. apply IH; try lia.
  rewrite <- (Z.add_mod_idemp_l y 1 33), <- (Z.add_mod_idemp_l y' 1 33) by lia.
  rewrite E. reflexivity.
Qed.

(** X5. [isShamsiLeapYear] marks eight years in every 33 consecutive years
    from year 0 on, and one year in every 33 consecutive years that end
    before year 0. *)
Theorem leapYears_per_cycle (year : Z) :
  (0 <= year -> leapYearsFrom year 33 = 8)
  /\ (year <= -33 -> leapYearsFrom year 33 = 1).
Proof.
  split; intros H.
  - rewrite leapYearsFrom_mod33 by assumption.
    pose proof (Z.mod_pos_bound year 33 ltac:(lia)) as Hr.
    assert (Hc : exists k, (k < 33)%nat /\ year mod 33 = Z.of_nat k).
    { exists (Z.to_nat (year mod 33)). lia. }
    destruct Hc as [k [Hk ->]].
    do 33 (destruct k as [| k]; [vm_compute; reflexivity |]). lia.
  - pose proof (Z.mod_pos_bound year 33 ltac:(lia)) as Hr.
    rewrite (leapYearsFrom_negative 33 year (year mod 33 - 66));
      [| lia | lia |].
    2:{ replace (year mod 33 - 66) with (year mod 33 + (-2) * 33) by lia.
        rewrite Z.mod_add by lia. rewrite Z.mod_mod by lia. reflexivity. }
    assert (Hc : exists k, (k < 33)%nat /\ year mod 33 = Z.of_nat k).
    { exists (Z.to_nat (year mod 33)). lia. }
    destruct Hc as [k [Hk ->]].
    do 33 (destruct k as [| k]; [vm_compute; reflexivity |]). lia.
Qed.

Lemma leapYears_per_cycle_witness :
  (0 <= 1400 /\ leapYearsFrom 1400 33 = 8)
  /\ (-50 <= -33 /\ leapYearsFrom (-50) 33 = 1).
Proof.
  split.
  - split; [lia | apply (proj1 (leapYears_per_cycle 1400)); lia].
  - split; [lia | apply (proj2 (leapYears_per_cycle (-50))); lia].
Defined.

(** X6. The twelve month lengths [getShamsiMonthDays] reports for a year
    never add up to the year length [getShamsiYearDays] reports for a
    common year: they sum to 366 in a leap year, where the year length is
    366, and to 367 in a common year, where the year length is 365. *)
Theorem sumMonthDays_vs_getShamsiYearDays (year : Z) :
  sumMonthDays year
  = Some (getShamsiYearDays year + (if isShamsiLeapYear year then 0 else 2))
  /\ (isShamsiLeapYear year = true ->
      sumMonthDays year = Some 366 /\ getShamsiYearDays year = 366)
  /\ (isShamsiLeapYear year = false ->
      sumMonthDays year = Some 367 /\ getShamsiYearDays year = 365).
Proof.
  rewrite sumMonthDays_value. unfold getShamsiYearDays.
  destruct (isShamsiLeapYear year); repeat split; congruence.
Qed.

Lemma sumMonthDays_vs_getShamsiYearDays_witness :
  (isShamsiLeapYear 1406 = true
   /\ sumMonthDays 1406 = Some 366 /\ getShamsiYearDays 1406 = 366)
  /\ (isShamsiLeapYear 1405 = false
      /\ sumMonthDays 1405 = Some 367 /\ getShamsiYearDays 1405 = 365).
Proof.
  split.
  - split; [reflexivity |].
    apply (proj1 (proj2 (sumMonthDays_vs_getShamsiYearDays 1406))).
    reflexivity.
  - split; [reflexivity |].
    apply (proj2 (proj2 (sumMonthDays_vs_getShamsiYearDays 1405))).
    reflexivity.
Defined.

(** ** Persian to Gregorian, continued *)

Lemma sumLoop_NaN (table : list Z) (n : nat) (i : Z) :
  sumLoop table n i None = None.
Proof.
  revert i. induction n as [| n IH]; intros i; [reflexivity |].
  cbn [sumLoop]. apply IH.
Qed.

(** Once the loop runs past the end of the table the sum is [NaN]. *)
Lemma sumLoop_outside (table : list Z) (n k : nat) (acc : num) :
  (0 < n)%nat -> (List.length table < k + n)%nat ->
  sumLoop table n (Z.of_nat k) acc = None.
Proof.
  revert k acc. induction n as [| n IH]; intros k acc Hn Hlen; [lia |].
  cbn [sumLoop].
  destruct (Nat.le_gt_cases (List.length table) k) as [Hout | Hin].
  - assert (Hidx : index table (Z.of_nat k) = Undefined).
    { unfold index. destruct (Z.ltb_spec (Z.of_nat k) 0); [reflexivity |].
      rewrite Nat2Z.id, (proj2 (nth_error_None table k)) by assumption.
      reflexivity. }
    rewrite Hidx. cbn [value_to_num].
    replace (add acc None) with (@None Z) by (destruct acc; reflexivity).
    apply sumLoop_NaN.
  - replace (Z.of_nat k + 1) with (Z.of_nat (S k)) by lia.
    apply IH; lia.
Qed.

Lemma daysBeforeMonth_outside (year month : Z) :
  14 <= month -> daysBeforeMonth (spec_monthTable year) month = None.
Proof.
  intros Hm. unfold daysBeforeMonth. change 0 with (Z.of_nat 0) at 1.
  apply sumLoop_outside; rewrite ?spec_monthTable_length; lia.
Qed.

Lemma daysBeforeMonth_value (year month : Z) :
  1 <= month <= 13 ->
  daysBeforeMonth (spec_monthTable year) month
  = Some (sumZ (firstn (Z.to_nat (month - 1)) (spec_monthTable year))).
Proof.
  intros Hm. unfold daysBeforeMonth. change 0 with (Z.of_nat 0) at 1.
  rewrite sumLoop_inside by (rewrite spec_monthTable_length; lia).
  reflexivity.
Qed.

(** The date object [convertShamsiToGregorian] builds, from the sum its
    loop produced. *)
Lemma shamsiToGregorianDate_sum (year month day : Z) (s : num) :
  daysBeforeMonth (spec_monthTable year) month = s ->
  shamsiToGregorianDate year month day
  = match s with
    | Some b =>
        TimeClip ((-492633 + ((year - 1) * 365 + (year - 1) / 33
                              + (b + (day - 1)))) * msPerDay)
    | None => None
    end.
Proof.
  intros Hs. unfold shamsiToGregorianDate. fold (spec_monthTable year).
  rewrite Hs. fold epochAnchor. rewrite epochAnchor_day.
  destruct s as [b |]; [| reflexivity].
  unfold floor_div, getTime, mul, lift2. rewrite !add_Some.
  change (24 * 60 * 60 * 1000) with msPerDay.
  unfold Date_ms. f_equal. lia.
Qed.

(** The date [convertShamsiToGregorian] builds for a month in 1..13: the
    anchor day advanced by the elapsed day count. *)
Lemma shamsiToGregorianDate_days (year month day : Z) :
  1 <= month <= 13 ->
  shamsiToGregorianDate year month day
  = TimeClip ((-492633 + spec_totalDays year month day) * msPerDay).
Proof.
  intros Hm.
  rewrite (shamsiToGregorianDate_sum year month day _
             (daysBeforeMonth_value year month Hm)).
  unfold spec_totalDays, spec_dayOfYear. f_equal; lia.
Qed.

(** The string printed for a valid date object. *)
Lemma convertShamsiToGregorian_of_time (year month day t : Z) :
  shamsiToGregorianDate year month day = Some t ->
  convertShamsiToGregorian year month day
  = toString (YearFromTime t) ++ str "-"
      ++ padZero (Some (MonthFromTime t + 1)) ++ str "-"
      ++ padZero (Some (DateFromTime t)).
Proof.
  intros Ht. unfold convertShamsiToGregorian. rewrite Ht. reflexivity.
Qed.

Lemma getShamsiMonthDays_inside (month year : Z) :
  1 <= month <= 12 ->
  getShamsiMonthDays month year = index (spec_monthTable year) (month - 1).
Proof.
  intros Hm. unfold getShamsiMonthDays, spec_monthTable.
  destruct (Z.ltb_spec month 1); [lia |].
  destruct (Z.gtb_spec month 12); [lia |].
  destruct (isShamsiLeapYear year); reflexivity.
Qed.

Lemma convertShamsiToGregorian_of_clip (year month day t : Z) :
  shamsiToGregorianDate year month day = TimeClip t ->
  Z.abs t <= 8640000000000000 ->
  convertShamsiToGregorian year month day
  = toString (YearFromTime t) ++ str "-"
      ++ padZero (Some (MonthFromTime t + 1)) ++ str "-"
      ++ padZero (Some (DateFromTime t)).
Proof.
  intros H Hvalid. rewrite (TimeClip_valid t Hvalid) in H.
  apply convertShamsiToGregorian_of_time, H.
Qed.

(** The length of month [month] (1..12) in the table of [year]. *)
Lemma monthLength_step (year month : Z) :
  1 <= month <= 12 ->
  exists len,
    index (spec_monthTable year) (month - 1) = Num len
    /\ sumZ (firstn (Z.to_nat (month + 1 - 1)) (spec_monthTable year))
       = sumZ (firstn (Z.to_nat (month - 1)) (spec_monthTable year)) + len.
Proof.
  intros Hm.
  assert (Hc : month = 1 \/ month = 2 \/ month = 3 \/ month = 4
               \/ month = 5 \/ month = 6 \/ month = 7 \/ month = 8
               \/ month = 9 \/ month = 10 \/ month = 11 \/ month = 12)
    by lia.
  unfold spec_monthTable.
  destruct (isShamsiLeapYear year); split_cases Hc; subst month;
    eexists; split; reflexivity.
Qed.

Lemma shamsiToGregorianDate_shift (year month day k t : Z) :
  shamsiToGregorianDate year month day = Some t ->
  shamsiToGregorianDate year month (day + k) = TimeClip (t + k * msPerDay).
Proof.
  intros Ht.
  rewrite (shamsiToGregorianDate_sum year month day _ eq_refl) in Ht.
  rewrite (shamsiToGregorianDate_sum year month (day + k) _ eq_refl).
  destruct (daysBeforeMonth (spec_monthTable year) month) as [b |];
    [| discriminate].
  apply TimeClip_Some in Ht. destruct Ht as [-> _]. f_equal. lia.
Qed.

(** X7. A month from 14 on makes the loop of [convertShamsiToGregorian]
    read past the end of the month table: the sum is [NaN], the date is
    invalid and the string is "NaN-NaN-NaN", whatever the year and day. *)
Theorem convertShamsiToGregorian_month_past_13 (year month day : Z) :
  14 <= month <= 1099511627776 ->
  daysBeforeMonth (spec_monthTable year) month = None
  /\ shamsiToGregorianDate year month day = None
  /\ convertShamsiToGregorian year month day = str "NaN-NaN-NaN".
Proof.
  intros [Hm _].
  pose proof (daysBeforeMonth_outside year month Hm) as Hs.
  assert (H : shamsiToGregorianDate year month day = None)
    by (rewrite (shamsiToGregorianDate_sum year month day None Hs);
        reflexivity).
  split; [exact Hs |]. split; [exact H |].
  unfold convertShamsiToGregorian. rewrite H. reflexivity.
Qed.

Lemma convertShamsiToGregorian_month_past_13_witness :
  14 <= 14 <= 1099511627776
  /\ shamsiToGregorianDate 1403 14 1 = None
  /\ convertShamsiToGregorian 1403 14 1 = str "NaN-NaN-NaN".
Proof.
  assert (H : 14 <= 14 <= 1099511627776) by lia.
  split; [exact H |].
  exact (proj2 (convertShamsiToGregorian_month_past_13 1403 14 1 H)).
Defined.

(** X8. A month below 1 is not rejected by [convertShamsiToGregorian]: its
    loop does not run, so the month is ignored and the date is that of the
    same day number in month 1 (year and day below 2^40 in magnitude). *)
Theorem convertShamsiToGregorian_month_below_1 (year month day : Z) :
  month <= 0 ->
  Z.abs year <= 1099511627776 -> Z.abs day <= 1099511627776 ->
  let t := (-492633 + ((year - 1) * 365 + (year - 1) / 33 + (day - 1)))
           * msPerDay in
  shamsiToGregorianDate year month day = TimeClip t
  /\ shamsiToGregorianDate year 1 day = TimeClip t
  /\ convertShamsiToGregorian year month day
     = convertShamsiToGregorian year 1 day
  /\ (Z.abs t <= 8640000000000000 ->
      convertShamsiToGregorian year month day
      = toString (YearFromTime t) ++ str "-"
          ++ padZero (Some (MonthFromTime t + 1)) ++ str "-"
          ++ padZero (Some (DateFromTime t))).
Proof.
  intros Hm _ _ t.
  assert (Hs : daysBeforeMonth (spec_monthTable year) month = Some 0).
  { unfold daysBeforeMonth.
    replace (Z.to_nat (month - 1)) with O by lia. reflexivity. }
  assert (H1 : daysBeforeMonth (spec_monthTable year) 1 = Some 0)
    by reflexivity.
  assert (Ha : shamsiToGregorianDate year month day = TimeClip t).
  { rewrite (shamsiToGregorianDate_sum year month day _ Hs).
    unfold t. f_equal; lia. }
  assert (Hb : shamsiToGregorianDate year 1 day = TimeClip t).
  { rewrite (shamsiToGregorianDate_sum year 1 day _ H1).
    unfold t. f_equal; lia. }
  split; [exact Ha |]. split; [exact Hb |]. split.
  - unfold convertShamsiToGregorian. rewrite Ha, Hb. reflexivity.
  - intros Hvalid. apply convertShamsiToGregorian_of_clip; assumption.
Qed.

Lemma convertShamsiToGregorian_month_below_1_witness :
  -5 <= 0
  /\ Z.abs 1403 <= 1099511627776 /\ Z.abs 10 <= 1099511627776
  /\ shamsiToGregorianDate 1403 (-5) 10 = Some 1654387200000
  /\ convertShamsiToGregorian 1403 (-5) 10 = str "2022-06-05"
  /\ convertShamsiToGregorian 1403 1 10 = str "2022-06-05".
Proof.
  assert (H1 : -5 <= 0) by lia.
  assert (H2 : Z.abs 1403 <= 1099511627776) by (apply Z.leb_le; reflexivity).
  assert (H3 : Z.abs 10 <= 1099511627776) by (apply Z.leb_le; reflexivity).
  pose proof (convertShamsiToGregorian_month_below_1 1403 (-5) 10 H1 H2 H3)
    as T.
  cbv zeta in T. destruct T as [Hd [_ [He Hs]]].
  assert (Hv : Z.abs ((-492633 + ((1403 - 1) * 365 + (1403 - 1) / 33
                                  + (10 - 1))) * msPerDay)
               <= 8640000000000000) by (apply Z.leb_le; reflexivity).
  split; [exact H1 |]. split; [exact H2 |]. split; [exact H3 |].
  split; [exact Hd |]. split; [exact (Hs Hv) |].
  exact (eq_trans (eq_sym He) (Hs Hv)).
Defined.

(** X9. Days past the end of a month carry over in
    [convertShamsiToGregorian]: month + 1 with a day is the same date as
    the month itself with the month length added to the day; so month 13 is
    accepted and continues the year after its twelfth month. *)
Theorem convertShamsiToGregorian_month_carry (year month day len : Z) :
  1 <= month <= 12 ->
  getShamsiMonthDays month year = Num len ->
  Z.abs year <= 1099511627776 -> Z.abs day <= 1099511627776 ->
  Z.abs (len + day) <= 1099511627776 ->
  let t := (-492633 + spec_totalDays year month (len + day)) * msPerDay in
  shamsiToGregorianDate year (month + 1) day = TimeClip t
  /\ shamsiToGregorianDate year month (len + day) = TimeClip t
  /\ convertShamsiToGregorian year (month + 1) day
     = convertShamsiToGregorian year month (len + day)
  /\ (Z.abs t <= 8640000000000000 ->
      convertShamsiToGregorian year (month + 1) day
      = toString (YearFromTime t) ++ str "-"
          ++ padZero (Some (MonthFromTime t + 1)) ++ str "-"
          ++ padZero (Some (DateFromTime t))).
Proof.
  intros Hm Hlen _ _ _ t.
  destruct (monthLength_step year month Hm) as [len' [Hidx Hsum]].
  assert (len' = len).
  { rewrite getShamsiMonthDays_inside in Hlen by exact Hm. congruence. }
  subst len'.
  assert (Hnext : shamsiToGregorianDate year (month + 1) day = TimeClip t).
  { rewrite shamsiToGregorianDate_days by lia.
    unfold t, spec_totalDays, spec_dayOfYear. rewrite Hsum. f_equal; lia. }
  pose proof (shamsiToGregorianDate_days year month (len + day) ltac:(lia))
    as Hsame.
  fold t in Hsame.
  split; [exact Hnext |]. split; [exact Hsame |]. split.
  - unfold convertShamsiToGregorian. rewrite Hnext, Hsame. reflexivity.
  - intros Hvalid. apply convertShamsiToGregorian_of_clip; assumption.
Qed.

Lemma convertShamsiToGregorian_month_carry_witness :
  1 <= 12 <= 12
  /\ getShamsiMonthDays 12 1403 = Num 30
  /\ Z.abs 1403 <= 1099511627776 /\ Z.abs 1 <= 1099511627776
  /\ Z.abs (30 + 1) <= 1099511627776
  /\ shamsiToGregorianDate 1403 (12 + 1) 1 = Some 1685318400000
  /\ convertShamsiToGregorian 1403 (12 + 1) 1 = str "2023-05-29"
  /\ convertShamsiToGregorian 1403 12 (30 + 1) = str "2023-05-29".
Proof.
  assert (H1 : 1 <= 12 <= 12) by lia.
  assert (H2 : getShamsiMonthDays 12 1403 = Num 30) by reflexivity.
  assert (H3 : Z.abs 1403 <= 1099511627776) by (apply Z.leb_le; reflexivity).
  assert (H4 : Z.abs 1 <= 1099511627776) by (apply Z.leb_le; reflexivity).
  assert (H5 : Z.abs (30 + 1) <= 1099511627776)
    by (apply Z.leb_le; reflexivity).
  pose proof (convertShamsiToGregorian_month_carry 1403 12 1 30
                H1 H2 H3 H4 H5) as T.
  cbv zeta in T. destruct T as [Hd [_ [He Hs]]].
  assert (Hv : Z.abs ((-492633 + spec_totalDays 1403 12 (30 + 1)) * msPerDay)
               <= 8640000000000000) by (apply Z.leb_le; reflexivity).
  split; [exact H1 |]. split; [exact H2 |]. split; [exact H3 |].
  split; [exact H4 |]. split; [exact H5 |].
  split; [exact Hd |]. split; [exact (Hs Hv) |].
  exact (eq_trans (eq_sym He) (Hs Hv)).
Defined.

(** X10. [convertShamsiToGregorian] does not check the day against the
    month length: every unit added to the day moves the date by one day,
    also through day 0, negative days and days past the end of the month
    (year and days below 2^40 in magnitude). *)
Theorem convertShamsiToGregorian_day_shift (year month day k t : Z) :
  shamsiToGregorianDate year month day = Some t ->
  Z.abs year <= 1099511627776 -> Z.abs day <= 1099511627776 ->
  Z.abs (day + k) <= 1099511627776 ->
  let t' := t + k * msPerDay in
  shamsiToGregorianDate year month (day + k) = TimeClip t'
  /\ (Z.abs t' <= 8640000000000000 ->
      Day t' = Day t + k
      /\ convertShamsiToGregorian year month (day + k)
         = toString (YearFromTime t') ++ str "-"
             ++ padZero (Some (MonthFromTime t' + 1)) ++ str "-"
             ++ padZero (Some (DateFromTime t'))).
Proof.
  intros Ht _ _ _ t'.
  pose proof (shamsiToGregorianDate_shift year month day k t Ht) as H.
  fold t' in H. split; [exact H |].
  intros Hvalid. rewrite (TimeClip_valid t' Hvalid) in H. split.
  - unfold t', Day, msPerDay. rewrite Z.div_add by lia. reflexivity.
  - apply convertShamsiToGregorian_of_time, H.
Qed.

Lemma convertShamsiToGregorian_day_shift_witness :
  shamsiToGregorianDate 1403 1 1 = Some 1653609600000
  /\ Z.abs 1403 <= 1099511627776 /\ Z.abs 1 <= 1099511627776
  /\ Z.abs (1 + 40) <= 1099511627776
  /\ shamsiToGregorianDate 1403 1 (1 + 40) = Some 1657065600000
  /\ convertShamsiToGregorian 1403 1 (1 + 40) = str "2022-07-06".
Proof.
  assert (H1 : shamsiToGregorianDate 1403 1 1 = Some 1653609600000)
    by reflexivity.
  assert (H2 : Z.abs 1403 <= 1099511627776) by (apply Z.leb_le; reflexivity).
  assert (H3 : Z.abs 1 <= 1099511627776) by (apply Z.leb_le; reflexivity).
  assert (H4 : Z.abs (1 + 40) <= 1099511627776)
    by (apply Z.leb_le; reflexivity).
  pose proof (convertShamsiToGregorian_day_shift 1403 1 1 40 _ H1 H2 H3 H4)
    as T.
  cbv zeta in T. destruct T as [Hd Hs].
  assert (Hv : Z.abs (1653609600000 + 40 * msPerDay) <= 8640000000000000)
    by (apply Z.leb_le; reflexivity).
  split; [exact H1 |]. split; [exact H2 |]. split; [exact H3 |].
  split; [exact H4 |].
  split; [exact Hd | exact (proj2 (Hs Hv))].
Defined.

(** X11. Two valid Persian dates with one Gregorian date: unless the year
    is a multiple of 33, day 29 of month 12 and day 1 of month 1 of the
    next year are converted to the same day, [year * 365 + floor(year / 33)]
    days after the anchor (the month table of a year adds up to more days
    than the 365 the year count advances by). *)
Theorem convertShamsiToGregorian_collision (year : Z) :
  year mod 33 <> 0 -> Z.abs year < 1099511627776 ->
  let t := (-492633 + (year * 365 + year / 33)) * msPerDay in
  validShamsiDate year 12 29 = true
  /\ validShamsiDate (year + 1) 1 1 = true
  /\ shamsiToGregorianDate year 12 29 = TimeClip t
  /\ shamsiToGregorianDate (year + 1) 1 1 = TimeClip t
  /\ convertShamsiToGregorian year 12 29
     = convertShamsiToGregorian (year + 1) 1 1
  /\ (Z.abs t <= 8640000000000000 ->
      convertShamsiToGregorian year 12 29
      = toString (YearFromTime t) ++ str "-"
          ++ padZero (Some (MonthFromTime t + 1)) ++ str "-"
          ++ padZero (Some (DateFromTime t))).
Proof.
  intros Hy _ t.
  assert (H12 : sumZ (firstn (Z.to_nat (12 - 1)) (spec_monthTable year))
                = 337).
  { unfold spec_monthTable. destruct (isShamsiLeapYear year); reflexivity. }
  assert (Ha : shamsiToGregorianDate year 12 29 = TimeClip t).
  { rewrite shamsiToGregorianDate_days by lia.
    unfold spec_totalDays, spec_dayOfYear. rewrite H12.
    f_equal. unfold t, msPerDay. Z.to_euclidean_division_equations. lia. }
  assert (Hb : shamsiToGregorianDate (year + 1) 1 1 = TimeClip t).
  { rewrite shamsiToGregorianDate_days by lia.
    unfold spec_totalDays, spec_dayOfYear.
    change (Z.to_nat (1 - 1)) with O. unfold firstn, sumZ, fold_right.
    f_equal. unfold t, msPerDay. Z.to_euclidean_division_equations. lia. }
  split; [| split; [| split; [exact Ha | split; [exact Hb | split]]]].
  - unfold validShamsiDate, getShamsiMonthDays.
    destruct (isShamsiLeapYear year); reflexivity.
  - unfold validShamsiDate, getShamsiMonthDays.
    destruct (isShamsiLeapYear (year + 1)); reflexivity.
  - unfold convertShamsiToGregorian. rewrite Ha, Hb. reflexivity.
  - intros Hvalid. apply convertShamsiToGregorian_of_clip; assumption.
Qed.

Lemma convertShamsiToGregorian_collision_witness :
  1403 mod 33 <> 0 /\ Z.abs 1403 < 1099511627776
  /\ validShamsiDate 1403 12 29 = true
  /\ validShamsiDate (1403 + 1) 1 1 = true
  /\ shamsiToGregorianDate 1403 12 29 = Some 1685145600000
  /\ shamsiToGregorianDate (1403 + 1) 1 1 = Some 1685145600000
  /\ convertShamsiToGregorian 1403 12 29 = str "2023-05-27"
  /\ convertShamsiToGregorian (1403 + 1) 1 1 = str "2023-05-27".
Proof.
  assert (H1 : 1403 mod 33 <> 0) by (vm_compute; discriminate).
  assert (H2 : Z.abs 1403 < 1099511627776) by (apply Z.ltb_lt; reflexivity).
  pose proof (convertShamsiToGregorian_collision 1403 H1 H2) as T.
  cbv zeta in T. destruct T as [V1 [V2 [Ha [Hb [E Hs]]]]].
  assert (Hv : Z.abs ((-492633 + (1403 * 365 + 1403 / 33)) * msPerDay)
               <= 8640000000000000) by (apply Z.leb_le; reflexivity).
  split; [exact H1 |]. split; [exact H2 |]. split; [exact V1 |].
  split; [exact V2 |]. split; [exact Ha |]. split; [exact Hb |].
  split; [exact (Hs Hv) | exact (eq_trans (eq_sym E) (Hs Hv))].
Defined.

(** X12. The year length inside [convertShamsiToGregorian]: the first days
    of two consecutive years are 365 days apart, and 366 only when the year
    is a multiple of 33.  [getShamsiYearDays] answers 366 for every year
    [isShamsiLeapYear] accepts, so for the other seven leap years of a
    cycle it disagrees with the conversion. *)
Theorem convertShamsiToGregorian_year_step (year t : Z) :
  shamsiToGregorianDate year 1 1 = Some t ->
  Z.abs year < 1099511627776 ->
  shamsiToGregorianDate (year + 1) 1 1
  = TimeClip (t + (if year mod 33 =? 0 then 366 else 365) * msPerDay)
  /\ (year mod 33 <> 0 -> isShamsiLeapYear year = true ->
      getShamsiYearDays year = 366
      /\ shamsiToGregorianDate (year + 1) 1 1
         = TimeClip (t + 365 * msPerDay)).
Proof.
  intros Ht _.
  assert (H : shamsiToGregorianDate (year + 1) 1 1
              = TimeClip (t + (if year mod 33 =? 0 then 366 else 365)
                              * msPerDay)).
  { rewrite (shamsiToGregorianDate_sum year 1 1 _
               (daysBeforeMonth_value year 1 ltac:(lia))) in Ht.
    rewrite (shamsiToGregorianDate_sum (year + 1) 1 1 _
               (daysBeforeMonth_value (year + 1) 1 ltac:(lia))).
    apply TimeClip_Some in Ht. destruct Ht as [-> _].
    change (Z.to_nat (1 - 1)) with O. unfold firstn, sumZ, fold_right.
    f_equal. unfold msPerDay. destruct (Z.eqb_spec (year mod 33) 0);
      Z.to_euclidean_division_equations; lia. }
  split; [exact H |].
  intros Hy Hleap. split.
  - unfold getShamsiYearDays. rewrite Hleap. reflexivity.
  - rewrite H. destruct (Z.eqb_spec (year mod 33) 0); [contradiction |].
    reflexivity.
Qed.

Lemma convertShamsiToGregorian_year_step_witness :
  shamsiToGregorianDate 1406 1 1 = Some 1748217600000
  /\ Z.abs 1406 < 1099511627776
  /\ 1406 mod 33 <> 0 /\ isShamsiLeapYear 1406 = true
  /\ getShamsiYearDays 1406 = 366
  /\ shamsiToGregorianDate (1406 + 1) 1 1
     = TimeClip (1748217600000 + 365 * msPerDay).
Proof.
  assert (H1 : shamsiToGregorianDate 1406 1 1 = Some 1748217600000)
    by reflexivity.
  assert (H2 : Z.abs 1406 < 1099511627776) by (apply Z.ltb_lt; reflexivity).
  assert (H3 : 1406 mod 33 <> 0) by (vm_compute; discriminate).
  assert (H4 : isShamsiLeapYear 1406 = true) by reflexivity.
  split; [exact H1 |]. split; [exact H2 |]. split; [exact H3 |].
  split; [exact H4 |].
  exact (proj2 (convertShamsiToGregorian_year_step 1406 _ H1 H2) H3 H4).
Defined.

(** ** Gregorian to Persian *)

Ltac walk_months :=
  cbv beta iota zeta delta
    [monthWalk lt add sub lift2 spec_monthTable
     leapYearDaysInMonths regularYearDaysInMonths];
  repeat match goal with
         | |- context [?a <? ?b] => destruct (Z.ltb_spec a b); try lia
         end.

Lemma validShamsiDate_inv (year month day : Z) :
  validShamsiDate year month day = true ->
  1 <= month <= 12
  /\ exists len, getShamsiMonthDays month year = Num len /\ 1 <= day <= len.
Proof.
  unfold validShamsiDate. intros H.
  destruct (getShamsiMonthDays month year) as [| | len] eqn:E;
    try discriminate.
  split.
  - unfold getShamsiMonthDays in E.
    destruct (Z.ltb_spec month 1); [discriminate |].
    destruct (Z.gtb_spec month 12); [discriminate | lia].
  - exists len. split; [reflexivity |].
    apply andb_true_iff in H. rewrite !Z.leb_le in H. lia.
Qed.

(** X13. The two month loops are inverse on valid dates: the walk of
    [convertGregorianToShamsi], started on the zero-based day of the year
    the loop of [convertShamsiToGregorian] accumulates for a valid date
    (month lengths before the month, plus day - 1), stops on that month and
    day. *)
Theorem monthWalk_inverts_daysBeforeMonth (year month day : Z) :
  validShamsiDate year month day = true ->
  exists b,
    daysBeforeMonth (spec_monthTable year) month = Some b
    /\ b = sumZ (firstn (Z.to_nat (month - 1)) (spec_monthTable year))
    /\ monthWalk (spec_monthTable year) 0 (Some (b + (day - 1)))
       = (month, Some day).
Proof.
  intros H. destruct (validShamsiDate_inv _ _ _ H) as [Hm [len [Hlen Hd]]].
  assert (Hc : month = 1 \/ month = 2 \/ month = 3 \/ month = 4
               \/ month = 5 \/ month = 6 \/ month = 7 \/ month = 8
               \/ month = 9 \/ month = 10 \/ month = 11 \/ month = 12)
    by lia.
  unfold getShamsiMonthDays in Hlen. unfold spec_monthTable.
  destruct (isShamsiLeapYear year); split_cases Hc; subst month;
    cbn in Hlen; injection Hlen as <-;
    (eexists; split; [reflexivity |]; split; [reflexivity |]);
    walk_months; repeat f_equal; lia.
Qed.

Lemma monthWalk_inverts_daysBeforeMonth_witness :
  validShamsiDate 1403 12 30 = true
  /\ daysBeforeMonth (spec_monthTable 1403) 12 = Some 337
  /\ monthWalk (spec_monthTable 1403) 0 (Some (337 + (30 - 1)))
     = (12, Some 30).
Proof.
  assert (H : validShamsiDate 1403 12 30 = true) by reflexivity.
  destruct (monthWalk_inverts_daysBeforeMonth 1403 12 30 H)
    as [b [Hb [Eb Hw]]].
  assert (E : b = 337) by (rewrite Eb; reflexivity).
  subst b. split; [exact H |]. split; [exact Hb | exact Hw].
Defined.

(** The walk over a month table, started with a day of the year 0..364:
    it stops inside the table, on a day that exists in the month found. *)
Lemma monthWalk_in_year (year r : Z) :
  0 <= r <= 364 ->
  exists m d len,
    monthWalk (spec_monthTable year) 0 (Some r) = (m, Some d)
    /\ 1 <= m <= 12
    /\ index (spec_monthTable year) (m - 1) = Num len
    /\ 1 <= d <= len
    /\ sumZ (firstn (Z.to_nat (m - 1)) (spec_monthTable year)) + (d - 1) = r.
Proof.
  intros Hr. unfold spec_monthTable at 1.
  destruct (isShamsiLeapYear year) eqn:E; walk_months;
    (do 3 eexists; split; [reflexivity |]);
    unfold spec_monthTable; rewrite E;
    (split; [lia |]); (split; [reflexivity |]);
    (split; [lia |]);
    match goal with
    | |- sumZ ?l + _ = _ =>
        let v := eval vm_compute in (sumZ l) in change (sumZ l) with v
    end; lia.
Qed.

(** What [convertGregorianToShamsi] computes once its input date is the
    valid time value [t]: [D] days after the anchor, year 621 + D/365.2422,
    then the month walk on [D % 365]. *)
Lemma gregorianToShamsiDate_of_time (gy gm gd t : Z) :
  Date_ymd gy (gm - 1) gd = Some t ->
  gregorianToShamsiDate gy gm gd
  = let D := Day t + 492633 in
    let y := 621 + floor_div_365_2422 D in
    let '(m, d) := monthWalk (spec_monthTable y) 0 (Some (rem D 365)) in
    (Some y, m, d).
Proof.
  intros Ht. unfold gregorianToShamsiDate. rewrite Ht.
  fold epochAnchor. rewrite epochAnchor_day.
  change (1000 * 60 * 60 * 24) with msPerDay.
  change (Some (-492633 * msPerDay)) with (Some (MakeDate (-492633) 0)).
  cbv beta iota delta [getTime sub lift2 option_map].
  rewrite floor_days. rewrite add_Some.
  replace (Day t - -492633) with (Day t + 492633) by lia.
  cbv zeta. reflexivity.
Qed.

Lemma gregorianToShamsiDate_after_anchor (gy gm gd t : Z) :
  Date_ymd gy (gm - 1) gd = Some t -> -492633 <= Day t ->
  exists y m d,
    gregorianToShamsiDate gy gm gd = (Some y, m, Some d)
    /\ y = 621 + floor_div_365_2422 (Day t + 492633)
    /\ validShamsiDate y m d = true
    /\ spec_dayOfYear y m d = (Day t + 492633) mod 365.
Proof.
  intros Ht Hafter.
  rewrite (gregorianToShamsiDate_of_time gy gm gd t Ht). cbv zeta.
  set (D := Day t + 492633). set (y := 621 + floor_div_365_2422 D).
  assert (Hrem : rem D 365 = D mod 365)
    by (unfold rem; apply Z.rem_mod_nonneg; lia).
  pose proof (Z.mod_pos_bound D 365 ltac:(lia)) as Hb.
  destruct (monthWalk_in_year y (rem D 365) ltac:(lia))
    as [m [d [len [Hw [Hm [Hidx [Hd Hsum]]]]]]].
  rewrite Hw. exists y, m, d.
  split; [reflexivity |]. split; [reflexivity |]. split.
  - unfold validShamsiDate. rewrite getShamsiMonthDays_inside, Hidx by lia.
    apply andb_true_iff. rewrite !Z.leb_le. lia.
  - unfold spec_dayOfYear. rewrite Hsum. exact Hrem.
Qed.



(** X15. [convertGregorianToShamsi] on a Gregorian date before
    21 March 621 (arguments up to a million in magnitude, less than
    1826211 days before the anchor): [D] is negative, [D % 365] is zero or
    negative, the month walk stops at once, and the date printed has month
    01 and a day that is 1 or below, written after a "0"; a day of 0 or
    less exists in no month. *)
Theorem convertGregorianToShamsi_before_anchor (gy gm gd t : Z) :
  Date_ymd gy (gm - 1) gd = Some t ->
  Z.abs gy <= 1000000 -> Z.abs gm <= 1000000 -> Z.abs gd <= 1000000 ->
  -1826211 < Day t + 492633 < 0 ->
  exists y d,
    gregorianToShamsiDate gy gm gd = (Some y, 1, Some d)
    /\ y = 621 + floor_div_365_2422 (Day t + 492633)
    /\ d = rem (Day t + 492633) 365 + 1
    /\ y <= 620
    /\ -363 <= d <= 1
    /\ (d <= 0 -> validShamsiDate y 1 d = false)
    /\ convertGregorianToShamsi gy gm gd
       = toString y ++ str "/01/0" ++ toString d.
Proof.
  intros Ht _ _ _ Hbefore.
  rewrite (gregorianToShamsiDate_of_time gy gm gd t Ht). cbv zeta.
  unfold convertGregorianToShamsi.
  rewrite (gregorianToShamsiDate_of_time gy gm gd t Ht). cbv zeta.
  set (D := Day t + 492633) in *. set (y := 621 + floor_div_365_2422 D).
  assert (HD : D < 0) by lia.
  assert (Hr : -364 <= rem D 365 <= 0).
  { unfold rem. Z.to_euclidean_division_equations. lia. }
  assert (Hw : monthWalk (spec_monthTable y) 0 (Some (rem D 365))
               = (1, Some (rem D 365 + 1))).
  { unfold spec_monthTable.
    destruct (isShamsiLeapYear y); walk_months; reflexivity. }
  rewrite Hw. exists y, (rem D 365 + 1).
  split; [reflexivity |]. split; [reflexivity |]. split; [reflexivity |].
  split.
  { unfold y, floor_div_365_2422. Z.to_euclidean_division_equations. lia. }
  split; [lia |]. split.
  - intros Hd. unfold validShamsiDate, getShamsiMonthDays.
    destruct (isShamsiLeapYear y); cbn [Z.ltb Z.gtb Z.compare orb index];
      cbn; apply andb_false_iff; left; apply Z.leb_gt; lia.
  - unfold padZero at 2. unfold lt.
    destruct (Z.ltb_spec (rem D 365 + 1) 10); [| lia].
    reflexivity.
Qed.

Lemma convertGregorianToShamsi_before_anchor_witness :
  Date_ymd 600 (1 - 1) 1 = Some (-43233004800000)
  /\ Z.abs 600 <= 1000000 /\ Z.abs 1 <= 1000000
  /\ -1826211 < Day (-43233004800000) + 492633 < 0
  /\ gregorianToShamsiDate 600 1 1 = (Some 599, 1, Some (-83))
  /\ validShamsiDate 599 1 (-83) = false
  /\ convertGregorianToShamsi 600 1 1 = str "599/01/0-83".
Proof.
  assert (H1 : Date_ymd 600 (1 - 1) 1 = Some (-43233004800000))
    by reflexivity.
  assert (H2 : Z.abs 600 <= 1000000) by (apply Z.leb_le; reflexivity).
  assert (H3 : Z.abs 1 <= 1000000) by (apply Z.leb_le; reflexivity).
  assert (H5 : -1826211 < Day (-43233004800000) + 492633 < 0)
    by (split; apply Z.ltb_lt; reflexivity).
  destruct (convertGregorianToShamsi_before_anchor 600 1 1 _ H1 H2 H3 H3 H5)
    as [y [d [Hg [_ [_ [_ [_ [Hv Hs]]]]]]]].
  assert (E : (Some 599, 1, Some (-83)) = (Some y, 1, Some d))
    by (rewrite <- Hg; reflexivity).
  injection E as <- <-.
  split; [exact H1 |]. split; [exact H2 |]. split; [exact H3 |].
  split; [exact H5 |]. split; [exact Hg |].
  split; [apply Hv; lia | exact Hs].
Defined.

Lemma persianYear_bounds (t : Z) :
  -4000 <= YearFromTime t <= 5000 ->
  YearFromTime t - 1 <= 621 + floor_div_365_2422 (Day t + 492633)
  <= YearFromTime t.
Proof.
  intros Hy.
  pose proof (YearFromDay_bounds (Day t)) as B.
  fold (YearFromTime t) in B.
  unfold floor_div_365_2422. unfold DayFromYear in B.
  Z.to_euclidean_division_equations. lia.
Qed.

(** X16. The year [convertGregorianToShamsi] prints is not a Persian year:
    it is 621 plus the years elapsed since 21 March 621, which is the
    Gregorian year of the date or the year before it (Gregorian years
    -4000..5000, all less than 1826211 days from the anchor). *)
Theorem convertGregorianToShamsi_year_is_gregorian (gy gm gd t : Z) :
  Date_ymd gy (gm - 1) gd = Some t ->
  Z.abs gy <= 1000000 -> Z.abs gm <= 1000000 -> Z.abs gd <= 1000000 ->
  -4000 <= YearFromTime t <= 5000 ->
  exists y m d,
    gregorianToShamsiDate gy gm gd = (Some y, m, d)
    /\ Z.abs (Day t + 492633) < 1826211
    /\ y = 621 + floor_div_365_2422 (Day t + 492633)
    /\ YearFromTime t - 1 <= y <= YearFromTime t
    /\ convertGregorianToShamsi gy gm gd
       = toString y ++ str "/" ++ padZero (Some m) ++ str "/" ++ padZero d.
Proof.
  intros Ht _ _ _ Hy.
  unfold convertGregorianToShamsi.
  rewrite (gregorianToShamsiDate_of_time gy gm gd t Ht). cbv zeta.
  destruct (monthWalk _ 0 _) as [m d].
  do 3 eexists. split; [reflexivity |]. split.
  { pose proof (YearFromDay_bounds (Day t)) as [Blo Bhi].
    fold (YearFromTime t) in Blo, Bhi.
    pose proof (DayFromYear_mono (-4000) (YearFromTime t) ltac:(lia)) as Mlo.
    pose proof (DayFromYear_mono (YearFromTime t + 1) 5001 ltac:(lia)) as Mhi.
    change (DayFromYear (-4000)) with (-2180498) in Mlo.
    change (DayFromYear 5001) with 1107050 in Mhi. lia. }
  split; [reflexivity |].
  split; [apply persianYear_bounds; assumption | reflexivity].
Qed.

Lemma convertGregorianToShamsi_year_is_gregorian_witness :
  Date_ymd 2024 (9 - 1) 1 = Some 1725148800000
  /\ Z.abs 2024 <= 1000000 /\ Z.abs 9 <= 1000000 /\ Z.abs 1 <= 1000000
  /\ -4000 <= YearFromTime 1725148800000 <= 5000
  /\ gregorianToShamsiDate 2024 9 1 = (Some 2024, 5, Some 18)
  /\ convertGregorianToShamsi 2024 9 1 = str "2024/05/18".
Proof.
  assert (H1 : Date_ymd 2024 (9 - 1) 1 = Some 1725148800000)
    by reflexivity.
  assert (H2 : Z.abs 2024 <= 1000000) by (apply Z.leb_le; reflexivity).
  assert (H3 : Z.abs 9 <= 1000000) by (apply Z.leb_le; reflexivity).
  assert (H4 : Z.abs 1 <= 1000000) by (apply Z.leb_le; reflexivity).
  assert (H5 : -4000 <= YearFromTime 1725148800000 <= 5000)
    by (split; apply Z.leb_le; reflexivity).
  destruct (convertGregorianToShamsi_year_is_gregorian
              2024 9 1 _ H1 H2 H3 H4 H5)
    as [y [m [d [Hg [_ [_ [_ Hs]]]]]]].
  assert (E : (Some 2024, 5, Some 18) = (Some y, m, d))
    by (rewrite <- Hg; reflexivity).
  injection E as <- <- <-.
  split; [exact H1 |]. split; [exact H2 |]. split; [exact H3 |].
  split; [exact H4 |]. split; [exact H5 |].
  split; [exact Hg | exact Hs].
Defined.

(** ** Day arithmetic on Persian dates *)

(** The calendar fields only depend on the day number. *)
Lemma fields_of_midnight (t : Z) :
  YearFromTime (MakeDate (Day t) 0) = YearFromTime t
  /\ MonthFromTime (MakeDate (Day t) 0) = MonthFromTime t
  /\ DateFromTime (MakeDate (Day t) 0) = DateFromTime t.
Proof.
  unfold DateFromTime, MonthFromTime, DayWithinYear, YearFromTime.
  rewrite !Day_MakeDate. repeat split.
Qed.

Lemma year_range_valid (t : Z) :
  1000 <= YearFromTime t <= 9999 -> Z.abs t <= 8640000000000000.
Proof.
  intros Hy. pose proof (YearFromDay_bounds (Day t)) as [Blo Bhi].
  fold (YearFromTime t) in Blo, Bhi.
  pose proof (DayFromYear_mono 1000 (YearFromTime t) ltac:(lia)) as Mlo.
  pose proof (DayFromYear_mono (YearFromTime t + 1) 10000 ltac:(lia)) as Mhi.
  change (DayFromYear 1000) with (-354285) in Mlo.
  change (DayFromYear 10000) with 2932897 in Mhi.
  unfold Day, msPerDay in *. Z.to_euclidean_division_equations. lia.
Qed.

(** A day less than 1826211 days from the anchor is a valid time value,
    and from the anchor on its year is 621 or later. *)
Lemma near_anchor_valid (t : Z) :
  Z.abs (Day t + 492633) < 1826211 -> Z.abs t <= 8640000000000000.
Proof.
  unfold Day, msPerDay. intros H. Z.to_euclidean_division_equations. lia.
Qed.

Lemma after_anchor_year (t : Z) :
  0 <= Day t + 492633 -> 621 <= YearFromTime t.
Proof.
  intros H. pose proof (YearFromDay_bounds (Day t)) as [_ Bhi].
  fold (YearFromTime t) in Bhi.
  destruct (Z.le_gt_cases 621 (YearFromTime t)) as [Hge | Hlt];
    [exact Hge |].
  pose proof (DayFromYear_mono (YearFromTime t + 1) 621 ltac:(lia)) as M.
  change (DayFromYear 621) with (-492712) in M. lia.
Qed.

(** Rebuilding the date object from the fields of a time value. *)
Lemma Date_ymd_fields (t : Z) :
  100 <= YearFromTime t -> Z.abs t <= 8640000000000000 ->
  Date_ymd (YearFromTime t) (MonthFromTime t + 1 - 1) (DateFromTime t)
  = Some (MakeDate (Day t) 0).
Proof.
  intros Hy Hvalid. unfold Date_ymd.
  destruct (Z.leb_spec 0 (YearFromTime t));
    destruct (Z.leb_spec (YearFromTime t) 99); cbn [andb]; try lia.
  replace (MonthFromTime t + 1 - 1) with (MonthFromTime t) by lia.
  pose proof (MakeDay_fields t 0) as E. rewrite !Z.add_0_r in E. rewrite E.
  apply TimeClip_valid.
  unfold MakeDate, Day, msPerDay in *. Z.to_euclidean_division_equations. lia.
Qed.

(** [convertGregorianToShamsi] on the fields read off a date object, from
    the anchor on. *)
Lemma getCurrentShamsiDate_after_anchor (t : Z) :
  0 <= Day t + 492633 < 1826211 ->
  exists y m d,
    y = 621 + floor_div_365_2422 (Day t + 492633)
    /\ validShamsiDate y m d = true
    /\ spec_dayOfYear y m d = (Day t + 492633) mod 365
    /\ getCurrentShamsiDate t
       = toString y ++ str "/" ++ padZero (Some m) ++ str "/"
           ++ padZero (Some d).
Proof.
  intros HD.
  pose proof (near_anchor_valid t ltac:(lia)) as Hvalid.
  pose proof (after_anchor_year t ltac:(lia)) as Hy.
  pose proof (Date_ymd_fields t ltac:(lia) Hvalid) as Hdate.
  assert (Hafter : -492633 <= Day (MakeDate (Day t) 0))
    by (rewrite Day_MakeDate; lia).
  destruct (gregorianToShamsiDate_after_anchor _ _ _ _ Hdate Hafter)
    as [y [m [d [Hg [Hyv [Hv Hs]]]]]].
  rewrite Day_MakeDate in Hyv, Hs.
  exists y, m, d. split; [exact Hyv |]. split; [exact Hv |].
  split; [exact Hs |].
  unfold getCurrentShamsiDate, convertGregorianToShamsi. rewrite Hg.
  reflexivity.
Qed.

(** X17. [getCurrentShamsiDate] at a clock reading from 21 March 621 on
    (less than 1826211 days after it): reading year, month and day off the
    date object and handing them to [convertGregorianToShamsi] loses
    nothing but the time of day; the string is the one for [D], the days
    since the anchor: year 621 + floor(D / 365.2422), and the month and day
    of day [D mod 365] of that year's table. *)
Theorem getCurrentShamsiDate_value (now : Z) :
  0 <= Day now + 492633 < 1826211 ->
  exists y m d,
    y = 621 + floor_div_365_2422 (Day now + 492633)
    /\ validShamsiDate y m d = true
    /\ spec_dayOfYear y m d = (Day now + 492633) mod 365
    /\ getCurrentShamsiDate now
       = toString y ++ str "/" ++ padZero (Some m) ++ str "/"
           ++ padZero (Some d)
    /\ getCurrentShamsiDate now = getCurrentShamsiDate (MakeDate (Day now) 0).
Proof.
  intros HD.
  destruct (getCurrentShamsiDate_after_anchor now HD)
    as [y [m [d [Hy [Hv [Hs Hstr]]]]]].
  exists y, m, d. repeat (split; [assumption |]).
  unfold getCurrentShamsiDate.
  destruct (fields_of_midnight now) as [-> [-> ->]]. reflexivity.
Qed.

Lemma getCurrentShamsiDate_value_witness :
  0 <= Day 1710934496789 + 492633 < 1826211
  /\ getCurrentShamsiDate 1710934496789 = str "2024/12/04"
  /\ getCurrentShamsiDate 1710934496789
     = getCurrentShamsiDate (MakeDate (Day 1710934496789) 0).
Proof.
  assert (H : 0 <= Day 1710934496789 + 492633 < 1826211)
    by (split; [apply Z.leb_le | apply Z.ltb_lt]; reflexivity).
  destruct (getCurrentShamsiDate_value 1710934496789 H)
    as [y [m [d [Hy [Hv [_ [Hstr Hmid]]]]]]].
  split; [exact H |]. split; [| exact Hmid].
  rewrite Hmid. reflexivity.
Defined.





(** ** The legacy converter, continued *)

Lemma Date_ymd_two_digit (year m d : Z) :
  0 <= year <= 99 -> Date_ymd year m d = Date_ymd (1900 + year) m d.
Proof.
  intros Hy. unfold Date_ymd.
  destruct (Z.leb_spec 0 year); [| lia].
  destruct (Z.leb_spec year 99); [| lia].
  destruct (Z.leb_spec 0 (1900 + year)); [| lia].
  destruct (Z.leb_spec (1900 + year) 99); [lia |].
  reflexivity.
Qed.

(** X19. The legacy converter reads a year 0..99 as 1900..1999, through
    [new Date(year, 2, 21)]: for a month in 1..12 the date found is
    March 21 of the year 1900 + year, advanced by the month lengths before
    the month plus the day, and the result is the one for the year
    1900 + year (whose remainder modulo 4 is the same). *)
Theorem convertToGregorianDate_two_digit_year (year month day : Z) :
  0 <= year <= 99 -> 1 <= month <= 12 -> Z.abs day <= 1099511627776 ->
  legacyGregorianDate year month day
  = TimeClip ((MakeDay (1900 + year) 2 21
               + (sumZ (firstn (Z.to_nat (month - 1))
                          (if rem year 4 =? 3 then leapYearDaysInMonths
                           else regularYearDaysInMonths))
                  + day)) * msPerDay)
  /\ legacyGregorianDate year month day
     = legacyGregorianDate (1900 + year) month day
  /\ convertToGregorianDate_numbers year month day
     = convertToGregorianDate_numbers (1900 + year) month day.
Proof.
  intros Hy Hm _.
  assert (H : legacyGregorianDate year month day
              = legacyGregorianDate (1900 + year) month day).
  { unfold legacyGregorianDate.
    rewrite (Date_ymd_two_digit year 2 21 Hy).
    assert (Hrem : (rem year 4 =? 3) = (rem (1900 + year) 4 =? 3)).
    { unfold rem.
      destruct (Z.eqb_spec (Z.rem year 4) 3);
        destruct (Z.eqb_spec (Z.rem (1900 + year) 4) 3); try reflexivity;
        exfalso; Z.to_euclidean_division_equations; lia. }
    rewrite Hrem. reflexivity. }
  split.
  { rewrite (legacyGregorianDate_algorithm year month day Hm).
    rewrite (Date_ymd_two_digit year 2 21 Hy).
    rewrite Date_ymd_newYear by lia.
    unfold Date_addDays, getTime. rewrite add_Some. unfold Date_ms.
    f_equal. unfold MakeDate. lia. }
  split; [exact H |].
  unfold convertToGregorianDate_numbers. rewrite H. reflexivity.
Qed.

Lemma convertToGregorianDate_two_digit_year_witness :
  0 <= 50 <= 99 /\ 1 <= 1 <= 12 /\ Z.abs 1 <= 1099511627776
  /\ legacyGregorianDate 50 1 1 = Some (-624240000000)
  /\ convertToGregorianDate_numbers 50 1 1 = str "03/22/1950"
  /\ convertToGregorianDate (str "50/01/01") = Some (str "03/22/1950").
Proof.
  assert (H1 : 0 <= 50 <= 99) by lia.
  assert (H2 : 1 <= 1 <= 12) by lia.
  assert (H3 : Z.abs 1 <= 1099511627776) by (apply Z.leb_le; reflexivity).
  destruct (convertToGregorianDate_two_digit_year 50 1 1 H1 H2 H3)
    as [Hd [_ Hs]].
  split; [exact H1 |]. split; [exact H2 |]. split; [exact H3 |].
  split; [exact Hd |]. split; [exact Hs |].
  exact (f_equal Some Hs).
Defined.

(** The legacy converter on the first day of a year: March 22 of the year
    with the same number. *)
Lemma legacyGregorianDate_new_year (year : Z) :
  100 <= year <= 275759 ->
  legacyGregorianDate year 1 1 = Some (MakeDate (MakeDay year 2 22) 0).
Proof.
  intros Hy.
  rewrite (legacyGregorianDate_algorithm year 1 1 ltac:(lia)).
  change (Z.to_nat (1 - 1)) with O.
  replace (sumZ (firstn 0 (if rem year 4 =? 3
                           then leapYearDaysInMonths
                           else regularYearDaysInMonths)) + 1) with 1
    by (destruct (rem year 4 =? 3); reflexivity).
  rewrite Date_ymd_newYear by lia.
  unfold Date_addDays, getTime. rewrite add_Some. unfold Date_ms.
  replace (MakeDate (MakeDay year 2 21) 0 + 1 * msPerDay)
    with (MakeDate (MakeDay year 2 22) 0)
    by (unfold MakeDate, MakeDay; lia).
  apply TimeClip_valid.
  pose proof (DayFromYear_mono 100 year ltac:(lia)) as Mlo.
  pose proof (DayFromYear_mono year 275759 ltac:(lia)) as Mhi.
  change (DayFromYear 100) with (-683003) in Mlo.
  change (DayFromYear 275759) with 99999379 in Mhi.
  unfold MakeDate, msPerDay, MakeDay.
  change (2 / 12) with 0. change (2 mod 12) with 2. rewrite !Z.add_0_r.
  destruct (isLeap year); cbn [monthStart]; lia.
Qed.

Lemma split_slash_digits (a rest cur : jsstring) :
  Forall (fun c => 48 <= c <= 57) a ->
  split_slash (a ++ 47 :: rest) cur
  = (rev cur ++ a) :: split_slash rest [].
Proof.
  revert cur. induction a as [| c a IH]; intros cur Ha.
  - cbn. rewrite app_nil_r. reflexivity.
  - inversion Ha as [| ? ? Hc Ha']; subst. cbn [app split_slash].
    destruct (Z.eqb_spec c 47); [lia |].
    rewrite IH by assumption. cbn [rev]. rewrite <- app_assoc. reflexivity.
Qed.

Lemma split_slash_last (a cur : jsstring) :
  Forall (fun c => 48 <= c <= 57) a ->
  split_slash a cur = [rev cur ++ a].
Proof.
  revert cur. induction a as [| c a IH]; intros cur Ha.
  - cbn. rewrite app_nil_r. reflexivity.
  - inversion Ha as [| ? ? Hc Ha']; subst. cbn [split_slash].
    destruct (Z.eqb_spec c 47); [lia |].
    rewrite IH by assumption. cbn [rev]. rewrite <- app_assoc. reflexivity.
Qed.

Lemma decimal4_digits (y : Z) :
  1000 <= y <= 9999 -> Forall (fun c => 48 <= c <= 57) (decimal4 y).
Proof.
  intros Hy. unfold decimal4.
  repeat constructor; Z.to_euclidean_division_equations; lia.
Qed.

Lemma decimal2_digits (n : Z) :
  0 <= n <= 99 -> Forall (fun c => 48 <= c <= 57) (decimal2 n).
Proof.
  intros Hn. unfold decimal2.
  repeat constructor; Z.to_euclidean_division_equations; lia.
Qed.

Lemma Number_dec_decimal4 (y : Z) :
  1000 <= y <= 9999 -> Number_dec (decimal4 y) = Some y.
Proof.
  intros Hy. unfold decimal4, Number_dec, digits_value.
  rewrite !digit_48 by (Z.to_euclidean_division_equations; lia).
  f_equal. Z.to_euclidean_division_equations. lia.
Qed.

Lemma Number_dec_decimal2 (n : Z) :
  0 <= n <= 99 -> Number_dec (decimal2 n) = Some n.
Proof.
  intros Hn. unfold decimal2, Number_dec, digits_value.
  rewrite !digit_48 by (Z.to_euclidean_division_equations; lia).
  f_equal. Z.to_euclidean_division_equations. lia.
Qed.

(** X20. The legacy converter on the first day of a four-digit year: the
    string it returns is March 22 of the year with the same number,
    "03/22/" followed by the input year. *)
Theorem convertToGregorianDate_new_year (year : Z) :
  1000 <= year <= 9999 ->
  legacyGregorianDate year 1 1 = Some (MakeDate (MakeDay year 2 22) 0)
  /\ convertToGregorianDate_numbers year 1 1 = str "03/22/" ++ toString year
  /\ convertToGregorianDate (toString year ++ str "/01/01")
     = Some (str "03/22/" ++ toString year).
Proof.
  intros Hy.
  assert (Hn : convertToGregorianDate_numbers year 1 1
               = str "03/22/" ++ toString year).
  { unfold convertToGregorianDate_numbers.
    rewrite legacyGregorianDate_new_year by lia.
    assert (Hd : 1 <= 22 <= DaysInMonth year (2 + 1)).
    { unfold DaysInMonth. destruct (isLeap year); cbn; lia. }
    destruct (civil_roundtrip year 2 22 ltac:(lia) Hd) as [Fy [Fm Fd]].
    cbv zeta in Fy, Fm, Fd.
    cbv beta iota delta [getFullYear getMonth getDate option_map].
    rewrite Fy, Fm, Fd. reflexivity. }
  split; [apply legacyGregorianDate_new_year; lia |].
  split; [exact Hn |].
  unfold convertToGregorianDate.
  rewrite toString_decimal4 by assumption.
  change (str "/01/01") with (47 :: [48; 49] ++ 47 :: [48; 49]).
  rewrite split_slash_digits by (apply decimal4_digits; assumption).
  rewrite split_slash_digits by (repeat constructor; lia).
  rewrite split_slash_last by (repeat constructor; lia).
  cbn [rev app map].
  rewrite Number_dec_decimal4 by assumption.
  change (Number_dec [48; 49]) with (Some 1). cbv beta iota.
  rewrite Hn, toString_decimal4 by assumption. reflexivity.
Qed.

Lemma convertToGregorianDate_new_year_witness :
  1000 <= 1402 <= 9999
  /\ convertToGregorianDate (str "1402/01/01") = Some (str "03/22/1402").
Proof.
  assert (H : 1000 <= 1402 <= 9999) by lia.
  split; [exact H |].
  exact (proj2 (proj2 (convertToGregorianDate_new_year 1402 H))).
Defined.

(** ** Weekday names *)

Lemma getShamsiWeekdayName_of_time (year month day t : Z) :
  shamsiToGregorianDate year month day = Some t ->
  1000 <= YearFromTime t <= 9999 ->
  getShamsiWeekdayName year month day
  = Some (index_string weekdays (WeekDay t)).
Proof.
  intros Ht Hy. unfold getShamsiWeekdayName, convertShamsiToGregorian.
  rewrite Ht, Date_parse_formatGregorian by assumption.
  unfold WeekDay. rewrite Day_MakeDate. reflexivity.
Qed.

Lemma weekdays_defined (i : Z) :
  0 <= i <= 6 ->
  exists name, index_string weekdays i = Some name /\ In name weekdays.
Proof.
  intros Hi.
  assert (Hc : i = 0 \/ i = 1 \/ i = 2 \/ i = 3 \/ i = 4 \/ i = 5 \/ i = 6)
    by lia.
  split_cases Hc; subst i; eexists; (split; [reflexivity |]);
    cbv [weekdays In]; tauto.
Qed.

(** X21. [getShamsiWeekdayName] on a Persian date that
    [convertShamsiToGregorian] sends to a Gregorian year 1000..9999: the
    name returned is the entry of the table at [getDay()], the weekday
    number of the Gregorian day with 0 for Sunday.  The table starts with
    the name of Saturday, so a Sunday is named "shanbe" (Saturday) and a
    Saturday "jom'e" (Friday).  Seven days later the name is the same. *)
Theorem getShamsiWeekdayName_week_period (year month day t : Z) :
  shamsiToGregorianDate year month day = Some t ->
  Z.abs year <= 1099511627776 -> Z.abs day <= 1099511627776 ->
  Z.abs (day + 7) <= 1099511627776 ->
  1000 <= YearFromTime t <= 9999 ->
  (exists name,
      getShamsiWeekdayName year month day = Some (Some name)
      /\ nth_error weekdays (Z.to_nat ((Day t + 4) mod 7)) = Some name
      /\ ((Day t + 4) mod 7 = 0 -> name = [1588; 1606; 1576; 1607])
      /\ ((Day t + 4) mod 7 = 6 -> name = [1580; 1605; 1593; 1607]))
  /\ (1000 <= YearFromTime (t + 7 * msPerDay) <= 9999 ->
      getShamsiWeekdayName year month (day + 7)
      = getShamsiWeekdayName year month day).
Proof.
  intros Ht _ _ _ Hy.
  rewrite (getShamsiWeekdayName_of_time year month day t Ht Hy).
  assert (Hw : 0 <= WeekDay t <= 6)
    by (unfold WeekDay; pose proof (Z.mod_pos_bound (Day t + 4) 7); lia).
  split.
  - destruct (weekdays_defined (WeekDay t) Hw) as [name [Hn Hin]].
    exists name. rewrite Hn. split; [reflexivity |].
    unfold index_string in Hn.
    destruct (Z.ltb_spec (WeekDay t) 0); [lia |].
    unfold WeekDay in Hn. split; [exact Hn |].
    split; intros E; rewrite E in Hn; vm_compute in Hn; congruence.
  - intros Hy'.
    assert (Ht' : shamsiToGregorianDate year month (day + 7)
                  = Some (t + 7 * msPerDay)).
    { rewrite (shamsiToGregorianDate_shift year month day 7 t Ht).
      apply TimeClip_valid, year_range_valid, Hy'. }
    rewrite (getShamsiWeekdayName_of_time year month (day + 7) _ Ht' Hy').
    do 2 f_equal. unfold WeekDay, Day, msPerDay.
    Z.to_euclidean_division_equations. lia.
Qed.

Lemma getShamsiWeekdayName_week_period_witness :
  shamsiToGregorianDate 1403 1 3 = Some 1653782400000
  /\ Z.abs 1403 <= 1099511627776 /\ Z.abs 3 <= 1099511627776
  /\ Z.abs (3 + 7) <= 1099511627776
  /\ 1000 <= YearFromTime 1653782400000 <= 9999
  /\ (Day 1653782400000 + 4) mod 7 = 0
  /\ getShamsiWeekdayName 1403 1 3 = Some (Some [1588; 1606; 1576; 1607])
  /\ getShamsiWeekdayName 1403 1 (3 + 7)
     = Some (Some [1588; 1606; 1576; 1607]).
Proof.
  assert (H1 : shamsiToGregorianDate 1403 1 3 = Some 1653782400000)
    by reflexivity.
  assert (H2 : Z.abs 1403 <= 1099511627776) by (apply Z.leb_le; reflexivity).
  assert (H3 : Z.abs 3 <= 1099511627776) by (apply Z.leb_le; reflexivity).
  assert (H4 : Z.abs (3 + 7) <= 1099511627776)
    by (apply Z.leb_le; reflexivity).
  assert (H5 : 1000 <= YearFromTime 1653782400000 <= 9999)
    by (split; apply Z.leb_le; reflexivity).
  assert (H6 : 1000 <= YearFromTime (1653782400000 + 7 * msPerDay) <= 9999)
    by (split; apply Z.leb_le; reflexivity).
  assert (H7 : (Day 1653782400000 + 4) mod 7 = 0) by reflexivity.
  destruct (getShamsiWeekdayName_week_period 1403 1 3 _ H1 H2 H3 H4 H5)
    as [[name [Hn [_ [Hsun _]]]] Hweek].
  rewrite (Hsun H7) in Hn.
  split; [exact H1 |]. split; [exact H2 |]. split; [exact H3 |].
  split; [exact H4 |]. split; [exact H5 |]. split; [exact H7 |].
  split; [exact Hn | exact (eq_trans (Hweek H6) Hn)].
Defined.

(** ** Pattern formatting *)

(** Numerals only hold digits and the minus sign. *)
Lemma string_of_uint_numeral (u : Decimal.uint) :
  Forall (fun c => c = 45 \/ 48 <= c <= 57)
         (str (NilEmpty.string_of_uint u)).
Proof.
  induction u; cbn [NilEmpty.string_of_uint]; try constructor;
    try assumption; try (cbn; lia).
Qed.

Lemma toString_numeral (n : Z) :
  Forall (fun c => c = 45 \/ 48 <= c <= 57) (toString n).
Proof.
  unfold toString, NilZero.string_of_int, NilZero.string_of_uint.
  destruct (Z.to_int n) as [u | u].
  - destruct u; try apply string_of_uint_numeral.
    change (str "0") with [48]. constructor; [lia | constructor].
  - change (str (String "-" ?s)) with (45 :: str s).
    constructor; [lia |].
    destruct u; try apply string_of_uint_numeral.
    change (str "0") with [48]. constructor; [lia | constructor].
Qed.

Lemma padZero_numeral (n : Z) :
  Forall (fun c => c = 45 \/ 48 <= c <= 57) (padZero (Some n)).
Proof.
  unfold padZero, num_toString. destruct (lt (Some n) (Some 10)).
  - change (str "0") with [48]. constructor; [lia | apply toString_numeral].
  - apply toString_numeral.
Qed.

Lemma startsWith_refl (tok s : jsstring) : startsWith tok (tok ++ s) = true.
Proof.
  induction tok as [| a tok IH]; [destruct s; reflexivity |].
  cbn. rewrite Z.eqb_refl. exact IH.
Qed.

Lemma replace_first_unfold (tok rep s : jsstring) :
  replace_first tok rep s
  = if startsWith tok s then rep ++ skipn (List.length tok) s
    else match s with
         | [] => []
         | c :: rest => c :: replace_first tok rep rest
         end.
Proof. destruct s; reflexivity. Qed.

Lemma occurs_unfold (tok s : jsstring) :
  occurs tok s
  = startsWith tok s
    || match s with
       | [] => false
       | _ :: rest => occurs tok rest
       end.
Proof. destruct s; reflexivity. Qed.

(** The first occurrence is replaced where the string starts with the
    token. *)
Lemma replace_first_here (tok rep s : jsstring) :
  replace_first tok rep (tok ++ s) = rep ++ s.
Proof.
  rewrite replace_first_unfold, startsWith_refl.
  f_equal. induction tok as [| a tok IH]; [reflexivity | exact IH].
Qed.

(** A prefix that has no code unit equal to the first one of the token is
    passed over. *)
Lemma replace_first_skip (a : Z) (tok rep pre s : jsstring) :
  Forall (fun c => c <> a) pre ->
  replace_first (a :: tok) rep (pre ++ s)
  = pre ++ replace_first (a :: tok) rep s.
Proof.
  induction 1 as [| c pre Hc _ IH]; [reflexivity |].
  cbn [app]. rewrite replace_first_unfold. cbn [startsWith].
  destruct (Z.eqb_spec a c); [congruence |]. cbn [andb].
  rewrite IH. reflexivity.
Qed.

Lemma occurs_skip (a : Z) (tok pre s : jsstring) :
  Forall (fun c => c <> a) pre ->
  occurs (a :: tok) (pre ++ s) = occurs (a :: tok) s.
Proof.
  induction 1 as [| c pre Hc _ IH]; [reflexivity |].
  cbn [app]. rewrite occurs_unfold. cbn [startsWith].
  destruct (Z.eqb_spec a c); [congruence |]. cbn [andb orb]. exact IH.
Qed.

Lemma replace_first_absent (tok rep s : jsstring) :
  occurs tok s = false -> replace_first tok rep s = s.
Proof.
  induction s as [| c s IH]; intros H; rewrite occurs_unfold in H;
    apply orb_false_iff in H; destruct H as [Hs Hr];
    rewrite replace_first_unfold, Hs; [reflexivity |].
  rewrite IH by assumption. reflexivity.
Qed.

Lemma replace_value_absent (tok : jsstring) (rep : option (option jsstring))
  (s : jsstring) :
  occurs tok s = false -> replace_value tok rep s = Some s.
Proof. intros H. unfold replace_value. rewrite H. reflexivity. Qed.

Lemma hasToken_false (pattern : jsstring) :
  hasToken pattern = false ->
  forall tok, In tok formatTokens -> occurs tok pattern = false.
Proof.
  unfold hasToken. intros H tok Hin.
  destruct (occurs tok pattern) eqn:E; [| reflexivity].
  assert (existsb (fun tok => occurs tok pattern) formatTokens = true)
    by (apply existsb_exists; exists tok; split; assumption).
  congruence.
Qed.

(** X22. A pattern that holds none of the eight tokens is returned by
    [formatShamsiDate] with only its Persian digits made Latin, whatever
    the date and time given (the month at most 2^40, so that the month
    loop behind the weekday ends). *)
Theorem formatShamsiDate_no_token
  (pattern : jsstring) (year month day hour minute second : Z) :
  hasToken pattern = false -> month <= 1099511627776 ->
  formatShamsiDate pattern year month day hour minute second
  = Some (convertToLatinDigits pattern).
Proof.
  intros H _. pose proof (hasToken_false pattern H) as Hf.
  unfold formatShamsiDate.
  rewrite (replace_first_absent (str "YYYY"))
    by (apply Hf; cbv [formatTokens In]; tauto).
  rewrite (replace_first_absent (str "MM"))
    by (apply Hf; cbv [formatTokens In]; tauto).
  rewrite (replace_first_absent (str "DD"))
    by (apply Hf; cbv [formatTokens In]; tauto).
  rewrite (replace_value_absent (str "Month"))
    by (apply Hf; cbv [formatTokens In]; tauto).
  rewrite (replace_value_absent (str "Weekday"))
    by (apply Hf; cbv [formatTokens In]; tauto).
  rewrite (replace_first_absent (str "HH"))
    by (apply Hf; cbv [formatTokens In]; tauto).
  rewrite (replace_first_absent (str "mm"))
    by (apply Hf; cbv [formatTokens In]; tauto).
  rewrite (replace_first_absent (str "ss"))
    by (apply Hf; cbv [formatTokens In]; tauto).
  reflexivity.
Qed.

Lemma formatShamsiDate_no_token_witness :
  hasToken (str "Y-M-D " ++ [1777; 1780; 1776; 1779]) = false
  /\ 1 <= 1099511627776
  /\ formatShamsiDate (str "Y-M-D " ++ [1777; 1780; 1776; 1779])
                      1403 1 1 0 0 0
     = Some (str "Y-M-D 1403").
Proof.
  assert (H1 : hasToken (str "Y-M-D " ++ [1777; 1780; 1776; 1779]) = false)
    by reflexivity.
  assert (H2 : 1 <= 1099511627776) by lia.
  split; [exact H1 |]. split; [exact H2 |].
  exact (formatShamsiDate_no_token _ 1403 1 1 0 0 0 H1 H2).
Defined.

Lemma not_head (a : Z) (l : jsstring) :
  58 <= a -> Forall (fun c => 45 <= c <= 57) l -> Forall (fun c => c <> a) l.
Proof.
  intros Ha H. eapply Forall_impl; [| exact H].
  intros c Hc. cbv beta in Hc. lia.
Qed.

Lemma numeral_dateChar (l : jsstring) :
  Forall (fun c => c = 45 \/ 48 <= c <= 57) l ->
  Forall (fun c => 45 <= c <= 57) l.
Proof.
  intros H. eapply Forall_impl; [| exact H].
  intros c Hc. cbv beta in Hc. lia.
Qed.

Lemma replace_first_after (a : Z) (tok rep pre s : jsstring) :
  Forall (fun c => c <> a) pre ->
  replace_first (a :: tok) rep (pre ++ (a :: tok) ++ s) = pre ++ rep ++ s.
Proof.
  intros H. rewrite replace_first_skip by assumption.
  rewrite replace_first_here. reflexivity.
Qed.

Lemma occurs_no_head (a : Z) (tok s : jsstring) :
  Forall (fun c => c <> a) s -> occurs (a :: tok) s = false.
Proof.
  intros H. rewrite <- (app_nil_r s), occurs_skip by assumption.
  reflexivity.
Qed.

Lemma dateChar_latin (s : jsstring) :
  Forall (fun c => 45 <= c <= 57) s -> convertToLatinDigits s = s.
Proof.
  intros H. apply convertToLatinDigits_fixed.
  eapply Forall_impl; [| exact H].
  intros c Hc. cbv beta in Hc. unfold isPersianDigit.
  apply andb_false_iff. left. apply Z.leb_gt. lia.
Qed.

(** The string for the pattern "YYYY/MM/DD". *)
Lemma ymd_dateChar (year month day : Z) :
  Forall (fun c => 45 <= c <= 57)
         (toString year ++ 47 :: padZero (Some month) ++ 47
            :: padZero (Some day)).
Proof.
  apply Forall_app. split; [apply numeral_dateChar, toString_numeral |].
  constructor; [lia |].
  apply Forall_app. split; [apply numeral_dateChar, padZero_numeral |].
  constructor; [lia |]. apply numeral_dateChar, padZero_numeral.
Qed.

Lemma formatShamsiDate_ymd (year month day hour minute second : Z) :
  formatShamsiDate (str "YYYY/MM/DD") year month day hour minute second
  = Some (toString year ++ 47 :: padZero (Some month) ++ 47
            :: padZero (Some day)).
Proof.
  pose proof (ymd_dateChar year month day) as Hall.
  set (out := toString year ++ 47 :: padZero (Some month) ++ 47
                :: padZero (Some day)) in *.
  unfold formatShamsiDate.
  change (str "YYYY/MM/DD")
    with (str "YYYY" ++ [47] ++ (77 :: [77]) ++ [47] ++ (68 :: [68]) ++ []).
  rewrite replace_first_here.
  change (str "MM") with (77 :: [77]).
  rewrite (app_assoc (toString year) [47]).
  rewrite replace_first_after
    by (apply not_head; [lia |];
        apply Forall_app; split;
        [apply numeral_dateChar, toString_numeral | repeat constructor; lia]).
  change (str "DD") with (68 :: [68]).
  rewrite (app_assoc (padZero (Some month)) [47]).
  rewrite (app_assoc (toString year ++ [47])).
  rewrite replace_first_after
    by (apply not_head; [lia |];
        repeat (apply Forall_app; split);
        try (apply numeral_dateChar, toString_numeral);
        try (apply numeral_dateChar, padZero_numeral);
        repeat constructor; lia).
  rewrite app_nil_r, <- !app_assoc. cbn [app]. fold out.
  change (str "Month") with (77 :: [111; 110; 116; 104]).
  change (str "Weekday") with (87 :: [101; 101; 107; 100; 97; 121]).
  change (str "HH") with (72 :: [72]).
  change (str "mm") with (109 :: [109]).
  change (str "ss") with (115 :: [115]).
  rewrite (replace_value_absent (77 :: [111; 110; 116; 104]))
    by (apply occurs_no_head, not_head; [lia | exact Hall]).
  rewrite (replace_value_absent (87 :: [101; 101; 107; 100; 97; 121]))
    by (apply occurs_no_head, not_head; [lia | exact Hall]).
  rewrite (replace_first_absent (72 :: [72]))
    by (apply occurs_no_head, not_head; [lia | exact Hall]).
  rewrite (replace_first_absent (109 :: [109]))
    by (apply occurs_no_head, not_head; [lia | exact Hall]).
  rewrite (replace_first_absent (115 :: [115]))
    by (apply occurs_no_head, not_head; [lia | exact Hall]).
  rewrite (dateChar_latin out Hall). reflexivity.
Qed.

(** X23. [formatShamsiDate] on the pattern "YYYY/MM/DD" (year, month and
    day below 2^40 in magnitude): the year in decimal, then month and day,
    each with a "0" in front when below 10 (so also when negative), with
    slashes between them; for a four-digit year and month and day in 0..99
    these are ten characters. *)
Theorem formatShamsiDate_slash_pattern
  (year month day hour minute second : Z) :
  Z.abs year <= 1099511627776 -> Z.abs month <= 1099511627776 ->
  Z.abs day <= 1099511627776 ->
  formatShamsiDate (str "YYYY/MM/DD") year month day hour minute second
  = Some (toString year ++ str "/" ++ padZero (Some month) ++ str "/"
            ++ padZero (Some day))
  /\ (1000 <= year <= 9999 -> 0 <= month <= 99 -> 0 <= day <= 99 ->
      formatShamsiDate (str "YYYY/MM/DD") year month day hour minute second
      = Some (decimal4 year ++ str "/" ++ decimal2 month ++ str "/"
                ++ decimal2 day)).
Proof.
  intros _ _ _. split.
  - apply formatShamsiDate_ymd.
  - intros Hy Hm Hd. rewrite formatShamsiDate_ymd.
    rewrite toString_decimal4, !padZero_decimal2 by assumption.
    reflexivity.
Qed.

Lemma formatShamsiDate_slash_pattern_witness :
  Z.abs 1403 <= 1099511627776 /\ Z.abs 7 <= 1099511627776
  /\ Z.abs (-2) <= 1099511627776
  /\ formatShamsiDate (str "YYYY/MM/DD") 1403 7 (-2) 0 0 0
     = Some (str "1403/07/0-2")
  /\ formatShamsiDate (str "YYYY/MM/DD") 1403 7 12 0 0 0
     = Some (str "1403/07/12").
Proof.
  assert (H1 : Z.abs 1403 <= 1099511627776) by (apply Z.leb_le; reflexivity).
  assert (H2 : Z.abs 7 <= 1099511627776) by (apply Z.leb_le; reflexivity).
  assert (H3 : Z.abs (-2) <= 1099511627776) by (apply Z.leb_le; reflexivity).
  assert (H4 : Z.abs 12 <= 1099511627776) by (apply Z.leb_le; reflexivity).
  split; [exact H1 |]. split; [exact H2 |]. split; [exact H3 |]. split.
  - exact (proj1 (formatShamsiDate_slash_pattern 1403 7 (-2) 0 0 0 H1 H2 H3)).
  - apply (proj2 (formatShamsiDate_slash_pattern 1403 7 12 0 0 0 H1 H2 H4));
      lia.
Defined.

Lemma occurs_after_numeral (a : Z) (tok pre s : jsstring) :
  58 <= a -> Forall (fun c => c = 45 \/ 48 <= c <= 57) pre ->
  occurs (a :: tok) s = false -> occurs (a :: tok) (pre ++ s) = false.
Proof.
  intros Ha Hpre Hs. rewrite occurs_skip; [exact Hs |].
  apply not_head; [exact Ha | apply numeral_dateChar, Hpre].
Qed.

(** X24. [formatShamsiDate] replaces a token once only: on a pattern that
    starts with "YYYY" and holds none of the other seven tokens after it,
    the result is the year followed by the rest of the pattern with its
    Persian digits made Latin; a second "YYYY" in the rest stays as it is
    (year below 2^40 in magnitude, month at most 2^40). *)
Theorem formatShamsiDate_replaces_once
  (rest : jsstring) (year month day hour minute second : Z) :
  (forall tok, In tok (tl formatTokens) -> occurs tok rest = false) ->
  Z.abs year <= 1099511627776 -> month <= 1099511627776 ->
  formatShamsiDate (str "YYYY" ++ rest) year month day hour minute second
  = Some (toString year ++ convertToLatinDigits rest).
Proof.
  intros Hrest _ _. unfold formatShamsiDate.
  rewrite replace_first_here.
  pose proof (toString_numeral year) as Hn.
  assert (Hocc : forall a tok, 58 <= a -> In (a :: tok) (tl formatTokens) ->
                 occurs (a :: tok) (toString year ++ rest) = false).
  { intros a tok Ha Hin. apply occurs_after_numeral; auto. }
  change (str "MM") with (77 :: [77]).
  change (str "DD") with (68 :: [68]).
  change (str "Month") with (77 :: [111; 110; 116; 104]).
  change (str "Weekday") with (87 :: [101; 101; 107; 100; 97; 121]).
  change (str "HH") with (72 :: [72]).
  change (str "mm") with (109 :: [109]).
  change (str "ss") with (115 :: [115]).
  rewrite (replace_first_absent (77 :: [77]))
    by (apply Hocc; [lia | cbv [formatTokens tl In str]; cbn; tauto]).
  rewrite (replace_first_absent (68 :: [68]))
    by (apply Hocc; [lia | cbv [formatTokens tl In str]; cbn; tauto]).
  rewrite (replace_value_absent (77 :: [111; 110; 116; 104]))
    by (apply Hocc; [lia | cbv [formatTokens tl In str]; cbn; tauto]).
  rewrite (replace_value_absent (87 :: [101; 101; 107; 100; 97; 121]))
    by (apply Hocc; [lia | cbv [formatTokens tl In str]; cbn; tauto]).
  rewrite (replace_first_absent (72 :: [72]))
    by (apply Hocc; [lia | cbv [formatTokens tl In str]; cbn; tauto]).
  rewrite (replace_first_absent (109 :: [109]))
    by (apply Hocc; [lia | cbv [formatTokens tl In str]; cbn; tauto]).
  rewrite (replace_first_absent (115 :: [115]))
    by (apply Hocc; [lia | cbv [formatTokens tl In str]; cbn; tauto]).
  f_equal. rewrite !convertToLatinDigits_map, map_app.
  rewrite <- !convertToLatinDigits_map.
  rewrite (dateChar_latin (toString year))
    by (apply numeral_dateChar, Hn).
  reflexivity.
Qed.

Lemma formatShamsiDate_replaces_once_witness :
  (forall tok, In tok (tl formatTokens) -> occurs tok (str "-YYYY") = false)
  /\ Z.abs 1403 <= 1099511627776 /\ 1 <= 1099511627776
  /\ formatShamsiDate (str "YYYY-YYYY") 1403 1 1 0 0 0
     = Some (str "1403-YYYY").
Proof.
  assert (H : forall tok, In tok (tl formatTokens) ->
              occurs tok (str "-YYYY") = false).
  { intros tok Hin. cbv [formatTokens tl In] in Hin.
    repeat (destruct Hin as [<- | Hin]; [reflexivity |]). contradiction. }
  assert (H2 : Z.abs 1403 <= 1099511627776) by (apply Z.leb_le; reflexivity).
  assert (H3 : 1 <= 1099511627776) by lia.
  split; [exact H |]. split; [exact H2 |]. split; [exact H3 |].
  exact (formatShamsiDate_replaces_once (str "-YYYY") 1403 1 1 0 0 0 H H2 H3).
Defined.

(** ** Formatting a date object *)

Lemma getCurrentShamsiDate_shape (t : Z) :
  1001 <= YearFromTime t <= 5000 ->
  exists y m d,
    1000 <= y <= 5000 /\ 1 <= m <= 12 /\ 1 <= d <= 31
    /\ y = 621 + floor_div_365_2422 (Day t + 492633)
    /\ spec_dayOfYear y m d = (Day t + 492633) mod 365
    /\ getCurrentShamsiDate t
       = toString y ++ 47 :: padZero (Some m) ++ 47 :: padZero (Some d).
Proof.
  intros Hy.
  assert (HD : 0 <= Day t + 492633 < 1826211).
  { pose proof (YearFromDay_bounds (Day t)) as [Blo Bhi].
    fold (YearFromTime t) in Blo, Bhi.
    pose proof (DayFromYear_mono 1001 (YearFromTime t) ltac:(lia)) as Mlo.
    pose proof (DayFromYear_mono (YearFromTime t + 1) 5001 ltac:(lia)) as Mhi.
    change (DayFromYear 1001) with (-353920) in Mlo.
    change (DayFromYear 5001) with 1107050 in Mhi. lia. }
  destruct (getCurrentShamsiDate_after_anchor t HD)
    as [y [m [d [Hyv [Hv [Hs Hstr]]]]]].
  destruct (validShamsiDate_inv _ _ _ Hv) as [Hm [len [Hlen Hd]]].
  assert (Hlen31 : len <= 31).
  { unfold getShamsiMonthDays in Hlen.
    destruct (Z.ltb_spec m 1); [lia |].
    destruct (Z.gtb_spec m 12); [lia |]. cbn [orb] in Hlen.
    assert (Hc : m = 1 \/ m = 2 \/ m = 3 \/ m = 4 \/ m = 5 \/ m = 6
                 \/ m = 7 \/ m = 8 \/ m = 9 \/ m = 10 \/ m = 11 \/ m = 12)
      by lia.
    destruct (isShamsiLeapYear y); split_cases Hc; subst m;
      cbn in Hlen; injection Hlen as <-; lia. }
  exists y, m, d.
  split.
  { rewrite Hyv. pose proof (persianYear_bounds t ltac:(lia)). lia. }
  split; [exact Hm |]. split; [lia |]. split; [exact Hyv |].
  split; [exact Hs | exact Hstr].
Qed.

Lemma getShamsiFormattedDate_unfold (pattern : jsstring) (date : Z) :
  getShamsiFormattedDate pattern date
  = match map Number_dec (split_slash (getCurrentShamsiDate date) []) with
    | Some year :: Some month :: Some day :: _ =>
        formatShamsiDate pattern year month day (HourFromTime date)
                         (MinFromTime date) (SecFromTime date)
    | _ => None
    end.
Proof. unfold getShamsiFormattedDate, getCurrentShamsiDate. reflexivity. Qed.

(** X25. [getShamsiFormattedDate] with the pattern "YYYY/MM/DD" on a date
    object in the Gregorian years 1001..5000 returns the string of
    [convertGregorianToShamsi] for that day unchanged: splitting it at the
    slashes, reading the three numbers and formatting them again gives the
    same ten characters, the year 621 + floor(D / 365.2422) and the month
    and day of day [D mod 365], [D] being the days since the anchor. *)
Theorem getShamsiFormattedDate_slash_pattern (date : Z) :
  1001 <= YearFromTime date <= 5000 ->
  exists y m d,
    y = 621 + floor_div_365_2422 (Day date + 492633)
    /\ 1 <= m <= 12 /\ 1 <= d <= 31
    /\ spec_dayOfYear y m d = (Day date + 492633) mod 365
    /\ getShamsiFormattedDate (str "YYYY/MM/DD") date
       = Some (decimal4 y ++ str "/" ++ decimal2 m ++ str "/" ++ decimal2 d)
    /\ getShamsiFormattedDate (str "YYYY/MM/DD") date
       = Some (getCurrentShamsiDate date).
Proof.
  intros Hy.
  destruct (getCurrentShamsiDate_shape date Hy)
    as [y [m [d [Hyr [Hm [Hd [Hyv [Hdoy Hs]]]]]]]].
  assert (Hfmt : getShamsiFormattedDate (str "YYYY/MM/DD") date
                 = Some (decimal4 y ++ str "/" ++ decimal2 m ++ str "/"
                           ++ decimal2 d)).
  { rewrite getShamsiFormattedDate_unfold, Hs.
    rewrite toString_decimal4, !padZero_decimal2 by lia.
    rewrite split_slash_digits by (apply decimal4_digits; lia).
    rewrite split_slash_digits by (apply decimal2_digits; lia).
    rewrite split_slash_last by (apply decimal2_digits; lia).
    cbn [rev app map].
    rewrite Number_dec_decimal4, !Number_dec_decimal2 by lia.
    cbv beta iota.
    rewrite formatShamsiDate_ymd.
    rewrite toString_decimal4, !padZero_decimal2 by lia.
    reflexivity. }
  exists y, m, d. split; [exact Hyv |]. split; [exact Hm |].
  split; [exact Hd |]. split; [exact Hdoy |]. split; [exact Hfmt |].
  rewrite Hfmt, Hs.
  rewrite toString_decimal4, !padZero_decimal2 by lia. reflexivity.
Qed.

Lemma getShamsiFormattedDate_slash_pattern_witness :
  1001 <= YearFromTime 1710934496789 <= 5000
  /\ getShamsiFormattedDate (str "YYYY/MM/DD") 1710934496789
     = Some (str "2024/12/04").
Proof.
  assert (H : 1001 <= YearFromTime 1710934496789 <= 5000)
    by (split; apply Z.leb_le; reflexivity).
  destruct (getShamsiFormattedDate_slash_pattern 1710934496789 H)
    as [y [m [d [_ [_ [_ [_ [_ Hs]]]]]]]].
  split; [exact H | exact Hs].
Defined.
